(** * cesium-transform-gizmo: the interaction engine of [Gizmo]

    A shallow embedding of the class [Gizmo] (ray casting against the
    handle colliders, the per-frame orientation update, the drag state
    machine and the decomposition of the model matrix into a
    [TransformState]) together with the properties of its specification.

    Numbers.  The source computes with JavaScript numbers.  They are
    modelled by the real numbers of the Standard Library: [Math.sqrt],
    [Math.acos], [Math.atan2], [Math.floor] and [Math.PI] are the real
    functions and constant, arithmetic is exact, and there is neither NaN
    nor an infinity (a division by zero yields [0], as [Rinv 0] does).
    Every concrete input used below is a dyadic or short decimal value on
    which the source performs the same comparisons.

    Cesium.  Vector and matrix arithmetic of the Cesium library that is
    plain linear algebra is written out ([Cartesian3], [Matrix3],
    [Matrix4]).  The geodetic, quaternion and intersection routines of
    Cesium, and the host scene (camera, picking), are interfaces: the
    records [Cesium] and [Viewer]. *)

From Stdlib Require Import Reals Lra Lia ZArith List Ascii String Bool.
Import ListNotations.

#[local] Open Scope string_scope.
#[local] Open Scope R_scope.

(* ================================================================== *)
(** ** Numbers *)

Module JsMath.

(** [Math.max(a, b)] *)
Definition max (a b : R) : R := Rmax a b.

(** [Math.abs] *)
Definition abs (a : R) : R := Rabs a.

(** [Math.floor] *)
Definition floor (a : R) : R := IZR (Zfloor a).

(** [Math.atan2(y, x)]: the angle of the point [(x, y)], in (-PI, PI]. *)
Definition atan2 (y x : R) : R :=
  if Rlt_dec 0 x then atan (y / x)
  else if Rlt_dec x 0 then
    if Rle_dec 0 y then atan (y / x) + PI else atan (y / x) - PI
  else if Rlt_dec 0 y then PI / 2
  else if Rlt_dec y 0 then - (PI / 2)
  else 0.

(** [Cesium.Math.clamp(value, min, max)] *)
Definition clamp (value lo hi : R) : R :=
  if Rlt_dec value lo then lo else if Rlt_dec hi value then hi else value.

(** [Cesium.Math.toDegrees] and [Cesium.Math.toRadians] *)
Definition toDegrees (rad : R) : R := rad * (180 / PI).
Definition toRadians (deg : R) : R := deg * (PI / 180).

(** [Number.MAX_VALUE], the largest finite double. *)
Definition MAX_VALUE : R := (2 - / 2 ^ 52) * 2 ^ 1023.

(** [x % m], the remainder of the truncated division (it takes the sign
    of the dividend). *)
Definition trunc (x : R) : R :=
  if Rle_dec 0 x then IZR (Zfloor x) else - IZR (Zfloor (- x)).
Definition rem (x m : R) : R := x - m * trunc (x / m).

(** [parseFloat(x.toFixed(d))]: [x] rounded to [d] decimal digits, a
    tie going away from zero. *)
Definition toFixed (d : nat) (x : R) : R :=
  if Rle_dec 0 x
  then IZR (Zfloor (x * 10 ^ d + / 2)) / 10 ^ d
  else - (IZR (Zfloor (- x * 10 ^ d + / 2)) / 10 ^ d).

End JsMath.

(* ================================================================== *)
(** ** Cesium value types *)

Record Cartesian2 := mkC2 { c2x : R; c2y : R }.

Record Cartesian3 := mkC3 { cx : R; cy : R; cz : R }.

Record Cartesian4 := mkC4 { qx : R; qy : R; qz : R; qw : R }.

Module Cartesian3.

Definition ZERO := mkC3 0 0 0.
Definition UNIT_X := mkC3 1 0 0.
Definition UNIT_Y := mkC3 0 1 0.
Definition UNIT_Z := mkC3 0 0 1.

Definition add (a b : Cartesian3) :=
  mkC3 (cx a + cx b) (cy a + cy b) (cz a + cz b).
Definition subtract (a b : Cartesian3) :=
  mkC3 (cx a - cx b) (cy a - cy b) (cz a - cz b).
Definition negate (a : Cartesian3) := mkC3 (- cx a) (- cy a) (- cz a).
Definition multiplyByScalar (a : Cartesian3) (s : R) :=
  mkC3 (cx a * s) (cy a * s) (cz a * s).
Definition dot (a b : Cartesian3) : R :=
  cx a * cx b + cy a * cy b + cz a * cz b.
Definition cross (a b : Cartesian3) :=
  mkC3 (cy a * cz b - cz a * cy b)
       (cz a * cx b - cx a * cz b)
       (cx a * cy b - cy a * cx b).
Definition magnitudeSquared (a : Cartesian3) : R :=
  cx a * cx a + cy a * cy a + cz a * cz a.
Definition magnitude (a : Cartesian3) : R := sqrt (magnitudeSquared a).
Definition normalize (a : Cartesian3) :=
  let m := magnitude a in mkC3 (cx a / m) (cy a / m) (cz a / m).

End Cartesian3.

(** A 3x3 matrix, by columns as Cesium stores it. *)
Record Matrix3 := mkM3 { m3c0 : Cartesian3; m3c1 : Cartesian3; m3c2 : Cartesian3 }.

Module Matrix3.

Definition getColumn (m : Matrix3) (i : nat) : Cartesian3 :=
  match i with
  | O => m3c0 m
  | S O => m3c1 m
  | _ => m3c2 m
  end.

Definition setColumn (m : Matrix3) (i : nat) (c : Cartesian3) : Matrix3 :=
  match i with
  | O => mkM3 c (m3c1 m) (m3c2 m)
  | S O => mkM3 (m3c0 m) c (m3c2 m)
  | _ => mkM3 (m3c0 m) (m3c1 m) c
  end.

(** [m] applied to the vector [v]. *)
Definition multiplyByVector (m : Matrix3) (v : Cartesian3) : Cartesian3 :=
  Cartesian3.add
    (Cartesian3.add (Cartesian3.multiplyByScalar (m3c0 m) (cx v))
                    (Cartesian3.multiplyByScalar (m3c1 m) (cy v)))
    (Cartesian3.multiplyByScalar (m3c2 m) (cz v)).

Definition multiply (a b : Matrix3) : Matrix3 :=
  mkM3 (multiplyByVector a (m3c0 b))
       (multiplyByVector a (m3c1 b))
       (multiplyByVector a (m3c2 b)).

Definition transpose (m : Matrix3) : Matrix3 :=
  mkM3 (mkC3 (cx (m3c0 m)) (cx (m3c1 m)) (cx (m3c2 m)))
       (mkC3 (cy (m3c0 m)) (cy (m3c1 m)) (cy (m3c2 m)))
       (mkC3 (cz (m3c0 m)) (cz (m3c1 m)) (cz (m3c2 m))).

Definition fromScale (s : Cartesian3) : Matrix3 :=
  mkM3 (mkC3 (cx s) 0 0) (mkC3 0 (cy s) 0) (mkC3 0 0 (cz s)).

Definition fromRotationX (angle : R) : Matrix3 :=
  mkM3 (mkC3 1 0 0)
       (mkC3 0 (cos angle) (sin angle))
       (mkC3 0 (- sin angle) (cos angle)).

Definition fromRotationY (angle : R) : Matrix3 :=
  mkM3 (mkC3 (cos angle) 0 (- sin angle))
       (mkC3 0 1 0)
       (mkC3 (sin angle) 0 (cos angle)).

End Matrix3.

(** A 4x4 matrix, by columns. *)
Record Matrix4 := mkM4
  { m4c0 : Cartesian4; m4c1 : Cartesian4; m4c2 : Cartesian4; m4c3 : Cartesian4 }.

Module Matrix4.

Definition IDENTITY : Matrix4 :=
  mkM4 (mkC4 1 0 0 0) (mkC4 0 1 0 0) (mkC4 0 0 1 0) (mkC4 0 0 0 1).

Definition column (m : Matrix4) (i : nat) : Cartesian4 :=
  match i with
  | O => m4c0 m
  | S O => m4c1 m
  | S (S O) => m4c2 m
  | _ => m4c3 m
  end.

(** [Matrix4.getColumn(m, i, result)] with a [Cartesian3] passed as the
    result object: its x, y and z are the first three rows. *)
Definition getColumn (m : Matrix4) (i : nat) : Cartesian3 :=
  let c := column m i in mkC3 (qx c) (qy c) (qz c).

Definition apply (m : Matrix4) (v : Cartesian4) : Cartesian4 :=
  mkC4 (qx (m4c0 m) * qx v + qx (m4c1 m) * qy v + qx (m4c2 m) * qz v + qx (m4c3 m) * qw v)
       (qy (m4c0 m) * qx v + qy (m4c1 m) * qy v + qy (m4c2 m) * qz v + qy (m4c3 m) * qw v)
       (qz (m4c0 m) * qx v + qz (m4c1 m) * qy v + qz (m4c2 m) * qz v + qz (m4c3 m) * qw v)
       (qw (m4c0 m) * qx v + qw (m4c1 m) * qy v + qw (m4c2 m) * qz v + qw (m4c3 m) * qw v).

Definition multiply (a b : Matrix4) : Matrix4 :=
  mkM4 (apply a (m4c0 b)) (apply a (m4c1 b)) (apply a (m4c2 b)) (apply a (m4c3 b)).

Definition multiplyByPoint (m : Matrix4) (p : Cartesian3) : Cartesian3 :=
  let r := apply m (mkC4 (cx p) (cy p) (cz p) 1) in mkC3 (qx r) (qy r) (qz r).

Definition multiplyByPointAsVector (m : Matrix4) (p : Cartesian3) : Cartesian3 :=
  let r := apply m (mkC4 (cx p) (cy p) (cz p) 0) in mkC3 (qx r) (qy r) (qz r).

Definition fromTranslation (t : Cartesian3) : Matrix4 :=
  mkM4 (mkC4 1 0 0 0) (mkC4 0 1 0 0) (mkC4 0 0 1 0) (mkC4 (cx t) (cy t) (cz t) 1).

Definition fromScale (s : Cartesian3) : Matrix4 :=
  mkM4 (mkC4 (cx s) 0 0 0) (mkC4 0 (cy s) 0 0) (mkC4 0 0 (cz s) 0) (mkC4 0 0 0 1).

(** [Matrix4.fromRotationTranslation(rotation)], the translation
    defaulting to zero. *)
Definition fromRotationTranslation (r : Matrix3) : Matrix4 :=
  let ext (c : Cartesian3) := mkC4 (cx c) (cy c) (cz c) 0 in
  mkM4 (ext (m3c0 r)) (ext (m3c1 r)) (ext (m3c2 r)) (mkC4 0 0 0 1).

Definition getTranslation (m : Matrix4) : Cartesian3 := getColumn m 3.

Definition getMatrix3 (m : Matrix4) : Matrix3 :=
  mkM3 (getColumn m 0) (getColumn m 1) (getColumn m 2).

Definition getScale (m : Matrix4) : Cartesian3 :=
  mkC3 (Cartesian3.magnitude (getColumn m 0))
       (Cartesian3.magnitude (getColumn m 1))
       (Cartesian3.magnitude (getColumn m 2)).

End Matrix4.

Record Ray := mkRay { origin : Cartesian3; direction : Cartesian3 }.

(** [Cesium.Ray.getPoint(ray, t)] *)
Definition Ray_getPoint (r : Ray) (t : R) : Cartesian3 :=
  Cartesian3.add (Cartesian3.multiplyByScalar (direction r) t) (origin r).

Record Plane := mkPlane { normal : Cartesian3; distance : R }.

(** [Cesium.Plane.fromPointNormal(point, normal)] *)
Definition Plane_fromPointNormal (point n : Cartesian3) : Plane :=
  mkPlane n (- Cartesian3.dot n point).

Record Interval := mkInterval { start : R; stop : R }.

Record AxisAlignedBoundingBox := mkAABB { minimum : Cartesian3; maximum : Cartesian3 }.

Record HeadingPitchRoll := mkHPR { heading : R; pitch : R; roll : R }.

(* ================================================================== *)
(** ** Data model of the gizmo *)

Inductive TransformMode := translate | rotate | scale.

Inductive Axis := X | Y | Z | XY | YZ | ZX | CENTER.

(** [GizmoId.type]: a transform mode or ['center']. *)
Inductive IdType := ofMode (m : TransformMode) | center_type.

Record GizmoId := mkId { axis : Axis; type : IdType; name : string }.

Inductive ColliderType := BOX | SECTOR.

Record GizmoCollider := mkCollider
  { id : GizmoId;
    ctype : ColliderType;
    localMin : Cartesian3;
    localMax : Cartesian3;
    primitiveKey : string;
    radius : option R;
    tube : option R;
    ringNormalAxis : option nat;
    startAngle : option R;
    endAngle : option R }.

Record Position := mkPosition { px : R; py : R; pz : R }.

Record TransformState := mkState
  { position : Position;
    rotation : HeadingPitchRoll;
    scale_ : Position;
    modelMatrix : Matrix4 }.

(** A rendered primitive of the gizmo, as far as the engine reads and
    writes it. *)
Record Primitive := mkPrimitive { show : bool; p_modelMatrix : Matrix4 }.

(** The bound object is a reference owned by the host.  [ref] is its
    identity; [isModelOrTileset] is the outcome of the source's
    [instanceof Cesium.Model || instanceof Cesium.Cesium3DTileset]. *)
Record BoundObject := mkObject { ref : nat; isModelOrTileset : bool }.

Definition same_object (a b : BoundObject) : bool :=
  Nat.eqb (ref a) (ref b) && Bool.eqb (isModelOrTileset a) (isModelOrTileset b).

Definition Axis_eqb (a b : Axis) : bool :=
  match a, b with
  | X, X | Y, Y | Z, Z | XY, XY | YZ, YZ | ZX, ZX | CENTER, CENTER => true
  | _, _ => false
  end.

Definition Mode_eqb (a b : TransformMode) : bool :=
  match a, b with
  | translate, translate | rotate, rotate | scale, scale => true
  | _, _ => false
  end.

Definition axisName (a : Axis) : string :=
  match a with
  | X => "X" | Y => "Y" | Z => "Z"
  | XY => "XY" | YZ => "YZ" | ZX => "ZX"
  | CENTER => "CENTER"
  end.

(** *** JavaScript string helpers *)

(** [s.includes(sub)] *)
Fixpoint includes (sub s : string) : bool :=
  if String.prefix sub s then true
  else match s with
       | EmptyString => false
       | String _ rest => includes sub rest
       end.

(** [s.split('_')] *)
Fixpoint split_underscore (s : string) : list string :=
  match s with
  | EmptyString => [EmptyString]
  | String c rest =>
      if Ascii.eqb c "_"%char then EmptyString :: split_underscore rest
      else match split_underscore rest with
           | [] => [String c EmptyString]
           | w :: ws => String c w :: ws
           end
  end.

(** [name.split('_')[1]] *)
Definition axisOfName (n : string) : option string :=
  nth_error (split_underscore n) 1.

(** *** Objects used as dictionaries *)

Definition Dict (A : Type) := list (string * A).

Fixpoint dict_get {A} (d : Dict A) (k : string) : option A :=
  match d with
  | [] => None
  | (k', v) :: rest => if String.eqb k' k then Some v else dict_get rest k
  end.

(** [d[k] = v]: an existing key keeps its place. *)
Fixpoint dict_set {A} (d : Dict A) (k : string) (v : A) : Dict A :=
  match d with
  | [] => [(k, v)]
  | (k', v') :: rest =>
      if String.eqb k' k then (k', v) :: rest else (k', v') :: dict_set rest k v
  end.

(* ================================================================== *)
(** ** Interfaces consumed by the engine *)

(** Routines of the Cesium library that are not plain linear algebra. *)
Record Cesium := mkCesium
  { (** [Transforms.eastNorthUpToFixedFrame] *)
    eastNorthUpToFixedFrame : Cartesian3 -> Matrix4;
    (** [Matrix4.inverse]; [None] when it throws *)
    Matrix4_inverse : Matrix4 -> option Matrix4;
    (** [Matrix3.inverse] *)
    Matrix3_inverse : Matrix3 -> Matrix3;
    (** [HeadingPitchRoll.fromQuaternion(Quaternion.fromRotationMatrix(m))] *)
    hprFromRotationMatrix : Matrix3 -> HeadingPitchRoll;
    (** [Matrix3.fromQuaternion(Quaternion.fromAxisAngle(axis, angle))] *)
    rotationFromAxisAngle : Cartesian3 -> R -> Matrix3;
    (** [IntersectionTests.rayAxisAlignedBoundingBox] *)
    rayAxisAlignedBoundingBox : Ray -> AxisAlignedBoundingBox -> option Interval;
    (** [IntersectionTests.rayPlane] *)
    rayPlane : Ray -> Plane -> option Cartesian3 }.

(** What [scene.pick] returned, reduced to what the engine looks at:
    [picked_id] is [picked.id] when it is an object with a truthy [type],
    and [picked_has_axis] tells whether its [axis] is truthy. *)
Record Picked := mkPicked { picked_id : GizmoId; picked_has_axis : bool }.

(** The host viewer at the time of one event or frame. *)
Record Viewer := mkViewer
  { camera_position : Cartesian3;
    camera_direction : Cartesian3;
    camera_up : Cartesian3;
    (** [camera.getPickRay(position)] *)
    getPickRay : Cartesian2 -> option Ray;
    (** [camera.getPixelSize(new BoundingSphere(center, 0), width, height)] *)
    getPixelSize : Cartesian3 -> R -> R -> R;
    canvas_clientWidth : R;
    canvas_clientHeight : R;
    canvas_width : R;
    canvas_height : R;
    (** [scene.pick(position)], [None] unless [picked.id.type] is truthy *)
    scene_pick : Cartesian2 -> option Picked;
    (** [object.boundingSphere.center] *)
    boundingSphere_center : BoundObject -> Cartesian3;
    (** an object that is neither a model nor a tileset, read as a point *)
    asCartesian3 : BoundObject -> Cartesian3;
    (** [PostProcessStageLibrary.isSilhouetteSupported(scene)] *)
    isSilhouetteSupported : bool }.

(* ================================================================== *)
(** ** The engine state *)

(** The fields of the class [Gizmo], followed by the host state the engine
    writes: the two flags of [scene.screenSpaceCameraController], the
    model matrix of every host object (by [ref]), the arguments passed to
    [onUpdate] so far (latest first), and the registrations undone by
    [destroy].  [_primitives] lists the keys of the primitives held by the
    primitive collection; the primitives themselves are shared with
    [_axisPrimitives].  Colours of primitives are not modelled. *)
Record Gizmo := mkGizmo
  { object : option BoundObject;
    center : option Cartesian3;
    axisLength : R;
    _width : R;
    _centerRadius : R;
    _mode : TransformMode;
    _activeScale : Cartesian3;
    _primitives : list string;
    _axisPrimitives : Dict Primitive;
    _colliders : list GizmoCollider;
    _handler : bool;
    _isDragging : bool;
    _dragAxisName : string;
    _dragPlane : option Plane;
    _dragStartPoint : Cartesian3;
    _dragStartCenter : Cartesian3;
    _dragVectorStart : Cartesian3;
    _initialModelMatrix : Matrix4;
    _highlightedId : option GizmoId;
    _outlineStage : bool;
    (** [_edgeDetectionStage.selected], [None] without the stage *)
    _edgeDetectionStage : option (list BoundObject);
    (** whether an [onUpdate] callback is set *)
    onUpdate : bool;
    (* host state *)
    enableRotate : bool;
    enableTranslate : bool;
    modelMatrixOf : nat -> Matrix4;
    emitted : list (option TransformState);
    preUpdate_listener : bool;
    scene_has_primitives : bool;
    scene_has_outlineStage : bool }.

(** *** Field assignments: [set_f v g] is [g] after [this.f = v]. *)

Definition set_object v (g : Gizmo) : Gizmo :=
  mkGizmo v (center g) (axisLength g) (_width g) (_centerRadius g) (_mode g)
    (_activeScale g) (_primitives g) (_axisPrimitives g) (_colliders g)
    (_handler g) (_isDragging g) (_dragAxisName g) (_dragPlane g)
    (_dragStartPoint g) (_dragStartCenter g) (_dragVectorStart g)
    (_initialModelMatrix g) (_highlightedId g) (_outlineStage g)
    (_edgeDetectionStage g) (onUpdate g) (enableRotate g) (enableTranslate g)
    (modelMatrixOf g) (emitted g) (preUpdate_listener g)
    (scene_has_primitives g) (scene_has_outlineStage g).

Definition set_center v (g : Gizmo) : Gizmo :=
  mkGizmo (object g) v (axisLength g) (_width g) (_centerRadius g) (_mode g)
    (_activeScale g) (_primitives g) (_axisPrimitives g) (_colliders g)
    (_handler g) (_isDragging g) (_dragAxisName g) (_dragPlane g)
    (_dragStartPoint g) (_dragStartCenter g) (_dragVectorStart g)
    (_initialModelMatrix g) (_highlightedId g) (_outlineStage g)
    (_edgeDetectionStage g) (onUpdate g) (enableRotate g) (enableTranslate g)
    (modelMatrixOf g) (emitted g) (preUpdate_listener g)
    (scene_has_primitives g) (scene_has_outlineStage g).

Definition set_mode v (g : Gizmo) : Gizmo :=
  mkGizmo (object g) (center g) (axisLength g) (_width g) (_centerRadius g) v
    (_activeScale g) (_primitives g) (_axisPrimitives g) (_colliders g)
    (_handler g) (_isDragging g) (_dragAxisName g) (_dragPlane g)
    (_dragStartPoint g) (_dragStartCenter g) (_dragVectorStart g)
    (_initialModelMatrix g) (_highlightedId g) (_outlineStage g)
    (_edgeDetectionStage g) (onUpdate g) (enableRotate g) (enableTranslate g)
    (modelMatrixOf g) (emitted g) (preUpdate_listener g)
    (scene_has_primitives g) (scene_has_outlineStage g).

Definition set_activeScale v (g : Gizmo) : Gizmo :=
  mkGizmo (object g) (center g) (axisLength g) (_width g) (_centerRadius g)
    (_mode g) v (_primitives g) (_axisPrimitives g) (_colliders g)
    (_handler g) (_isDragging g) (_dragAxisName g) (_dragPlane g)
    (_dragStartPoint g) (_dragStartCenter g) (_dragVectorStart g)
    (_initialModelMatrix g) (_highlightedId g) (_outlineStage g)
    (_edgeDetectionStage g) (onUpdate g) (enableRotate g) (enableTranslate g)
    (modelMatrixOf g) (emitted g) (preUpdate_listener g)
    (scene_has_primitives g) (scene_has_outlineStage g).

Definition set_primitives v (g : Gizmo) : Gizmo :=
  mkGizmo (object g) (center g) (axisLength g) (_width g) (_centerRadius g)
    (_mode g) (_activeScale g) v (_axisPrimitives g) (_colliders g)
    (_handler g) (_isDragging g) (_dragAxisName g) (_dragPlane g)
    (_dragStartPoint g) (_dragStartCenter g) (_dragVectorStart g)
    (_initialModelMatrix g) (_highlightedId g) (_outlineStage g)
    (_edgeDetectionStage g) (onUpdate g) (enableRotate g) (enableTranslate g)
    (modelMatrixOf g) (emitted g) (preUpdate_listener g)
    (scene_has_primitives g) (scene_has_outlineStage g).

Definition set_axisPrimitives v (g : Gizmo) : Gizmo :=
  mkGizmo (object g) (center g) (axisLength g) (_width g) (_centerRadius g)
    (_mode g) (_activeScale g) (_primitives g) v (_colliders g) (_handler g)
    (_isDragging g) (_dragAxisName g) (_dragPlane g) (_dragStartPoint g)
    (_dragStartCenter g) (_dragVectorStart g) (_initialModelMatrix g)
    (_highlightedId g) (_outlineStage g) (_edgeDetectionStage g) (onUpdate g)
    (enableRotate g) (enableTranslate g) (modelMatrixOf g) (emitted g)
    (preUpdate_listener g) (scene_has_primitives g)
    (scene_has_outlineStage g).

Definition set_colliders v (g : Gizmo) : Gizmo :=
  mkGizmo (object g) (center g) (axisLength g) (_width g) (_centerRadius g)
    (_mode g) (_activeScale g) (_primitives g) (_axisPrimitives g) v
    (_handler g) (_isDragging g) (_dragAxisName g) (_dragPlane g)
    (_dragStartPoint g) (_dragStartCenter g) (_dragVectorStart g)
    (_initialModelMatrix g) (_highlightedId g) (_outlineStage g)
    (_edgeDetectionStage g) (onUpdate g) (enableRotate g) (enableTranslate g)
    (modelMatrixOf g) (emitted g) (preUpdate_listener g)
    (scene_has_primitives g) (scene_has_outlineStage g).

Definition set_handler v (g : Gizmo) : Gizmo :=
  mkGizmo (object g) (center g) (axisLength g) (_width g) (_centerRadius g)
    (_mode g) (_activeScale g) (_primitives g) (_axisPrimitives g)
    (_colliders g) v (_isDragging g) (_dragAxisName g) (_dragPlane g)
    (_dragStartPoint g) (_dragStartCenter g) (_dragVectorStart g)
    (_initialModelMatrix g) (_highlightedId g) (_outlineStage g)
    (_edgeDetectionStage g) (onUpdate g) (enableRotate g) (enableTranslate g)
    (modelMatrixOf g) (emitted g) (preUpdate_listener g)
    (scene_has_primitives g) (scene_has_outlineStage g).

Definition set_isDragging v (g : Gizmo) : Gizmo :=
  mkGizmo (object g) (center g) (axisLength g) (_width g) (_centerRadius g)
    (_mode g) (_activeScale g) (_primitives g) (_axisPrimitives g)
    (_colliders g) (_handler g) v (_dragAxisName g) (_dragPlane g)
    (_dragStartPoint g) (_dragStartCenter g) (_dragVectorStart g)
    (_initialModelMatrix g) (_highlightedId g) (_outlineStage g)
    (_edgeDetectionStage g) (onUpdate g) (enableRotate g) (enableTranslate g)
    (modelMatrixOf g) (emitted g) (preUpdate_listener g)
    (scene_has_primitives g) (scene_has_outlineStage g).

Definition set_dragAxisName v (g : Gizmo) : Gizmo :=
  mkGizmo (object g) (center g) (axisLength g) (_width g) (_centerRadius g)
    (_mode g) (_activeScale g) (_primitives g) (_axisPrimitives g)
    (_colliders g) (_handler g) (_isDragging g) v (_dragPlane g)
    (_dragStartPoint g) (_dragStartCenter g) (_dragVectorStart g)
    (_initialModelMatrix g) (_highlightedId g) (_outlineStage g)
    (_edgeDetectionStage g) (onUpdate g) (enableRotate g) (enableTranslate g)
    (modelMatrixOf g) (emitted g) (preUpdate_listener g)
    (scene_has_primitives g) (scene_has_outlineStage g).

Definition set_dragPlane v (g : Gizmo) : Gizmo :=
  mkGizmo (object g) (center g) (axisLength g) (_width g) (_centerRadius g)
    (_mode g) (_activeScale g) (_primitives g) (_axisPrimitives g)
    (_colliders g) (_handler g) (_isDragging g) (_dragAxisName g) v
    (_dragStartPoint g) (_dragStartCenter g) (_dragVectorStart g)
    (_initialModelMatrix g) (_highlightedId g) (_outlineStage g)
    (_edgeDetectionStage g) (onUpdate g) (enableRotate g) (enableTranslate g)
    (modelMatrixOf g) (emitted g) (preUpdate_listener g)
    (scene_has_primitives g) (scene_has_outlineStage g).

Definition set_dragStartPoint v (g : Gizmo) : Gizmo :=
  mkGizmo (object g) (center g) (axisLength g) (_width g) (_centerRadius g)
    (_mode g) (_activeScale g) (_primitives g) (_axisPrimitives g)
    (_colliders g) (_handler g) (_isDragging g) (_dragAxisName g)
    (_dragPlane g) v (_dragStartCenter g) (_dragVectorStart g)
    (_initialModelMatrix g) (_highlightedId g) (_outlineStage g)
    (_edgeDetectionStage g) (onUpdate g) (enableRotate g) (enableTranslate g)
    (modelMatrixOf g) (emitted g) (preUpdate_listener g)
    (scene_has_primitives g) (scene_has_outlineStage g).

Definition set_dragStartCenter v (g : Gizmo) : Gizmo :=
  mkGizmo (object g) (center g) (axisLength g) (_width g) (_centerRadius g)
    (_mode g) (_activeScale g) (_primitives g) (_axisPrimitives g)
    (_colliders g) (_handler g) (_isDragging g) (_dragAxisName g)
    (_dragPlane g) (_dragStartPoint g) v (_dragVectorStart g)
    (_initialModelMatrix g) (_highlightedId g) (_outlineStage g)
    (_edgeDetectionStage g) (onUpdate g) (enableRotate g) (enableTranslate g)
    (modelMatrixOf g) (emitted g) (preUpdate_listener g)
    (scene_has_primitives g) (scene_has_outlineStage g).

Definition set_dragVectorStart v (g : Gizmo) : Gizmo :=
  mkGizmo (object g) (center g) (axisLength g) (_width g) (_centerRadius g)
    (_mode g) (_activeScale g) (_primitives g) (_axisPrimitives g)
    (_colliders g) (_handler g) (_isDragging g) (_dragAxisName g)
    (_dragPlane g) (_dragStartPoint g) (_dragStartCenter g) v
    (_initialModelMatrix g) (_highlightedId g) (_outlineStage g)
    (_edgeDetectionStage g) (onUpdate g) (enableRotate g) (enableTranslate g)
    (modelMatrixOf g) (emitted g) (preUpdate_listener g)
    (scene_has_primitives g) (scene_has_outlineStage g).

Definition set_initialModelMatrix v (g : Gizmo) : Gizmo :=
  mkGizmo (object g) (center g) (axisLength g) (_width g) (_centerRadius g)
    (_mode g) (_activeScale g) (_primitives g) (_axisPrimitives g)
    (_colliders g) (_handler g) (_isDragging g) (_dragAxisName g)
    (_dragPlane g) (_dragStartPoint g) (_dragStartCenter g)
    (_dragVectorStart g) v (_highlightedId g) (_outlineStage g)
    (_edgeDetectionStage g) (onUpdate g) (enableRotate g) (enableTranslate g)
    (modelMatrixOf g) (emitted g) (preUpdate_listener g)
    (scene_has_primitives g) (scene_has_outlineStage g).

Definition set_highlightedId v (g : Gizmo) : Gizmo :=
  mkGizmo (object g) (center g) (axisLength g) (_width g) (_centerRadius g)
    (_mode g) (_activeScale g) (_primitives g) (_axisPrimitives g)
    (_colliders g) (_handler g) (_isDragging g) (_dragAxisName g)
    (_dragPlane g) (_dragStartPoint g) (_dragStartCenter g)
    (_dragVectorStart g) (_initialModelMatrix g) v (_outlineStage g)
    (_edgeDetectionStage g) (onUpdate g) (enableRotate g) (enableTranslate g)
    (modelMatrixOf g) (emitted g) (preUpdate_listener g)
    (scene_has_primitives g) (scene_has_outlineStage g).

Definition set_outlineStage v (g : Gizmo) : Gizmo :=
  mkGizmo (object g) (center g) (axisLength g) (_width g) (_centerRadius g)
    (_mode g) (_activeScale g) (_primitives g) (_axisPrimitives g)
    (_colliders g) (_handler g) (_isDragging g) (_dragAxisName g)
    (_dragPlane g) (_dragStartPoint g) (_dragStartCenter g)
    (_dragVectorStart g) (_initialModelMatrix g) (_highlightedId g) v
    (_edgeDetectionStage g) (onUpdate g) (enableRotate g) (enableTranslate g)
    (modelMatrixOf g) (emitted g) (preUpdate_listener g)
    (scene_has_primitives g) (scene_has_outlineStage g).

Definition set_edgeDetectionStage v (g : Gizmo) : Gizmo :=
  mkGizmo (object g) (center g) (axisLength g) (_width g) (_centerRadius g)
    (_mode g) (_activeScale g) (_primitives g) (_axisPrimitives g)
    (_colliders g) (_handler g) (_isDragging g) (_dragAxisName g)
    (_dragPlane g) (_dragStartPoint g) (_dragStartCenter g)
    (_dragVectorStart g) (_initialModelMatrix g) (_highlightedId g)
    (_outlineStage g) v (onUpdate g) (enableRotate g) (enableTranslate g)
    (modelMatrixOf g) (emitted g) (preUpdate_listener g)
    (scene_has_primitives g) (scene_has_outlineStage g).

Definition set_enableRotate v (g : Gizmo) : Gizmo :=
  mkGizmo (object g) (center g) (axisLength g) (_width g) (_centerRadius g)
    (_mode g) (_activeScale g) (_primitives g) (_axisPrimitives g)
    (_colliders g) (_handler g) (_isDragging g) (_dragAxisName g)
    (_dragPlane g) (_dragStartPoint g) (_dragStartCenter g)
    (_dragVectorStart g) (_initialModelMatrix g) (_highlightedId g)
    (_outlineStage g) (_edgeDetectionStage g) (onUpdate g) v
    (enableTranslate g) (modelMatrixOf g) (emitted g) (preUpdate_listener g)
    (scene_has_primitives g) (scene_has_outlineStage g).

Definition set_enableTranslate v (g : Gizmo) : Gizmo :=
  mkGizmo (object g) (center g) (axisLength g) (_width g) (_centerRadius g)
    (_mode g) (_activeScale g) (_primitives g) (_axisPrimitives g)
    (_colliders g) (_handler g) (_isDragging g) (_dragAxisName g)
    (_dragPlane g) (_dragStartPoint g) (_dragStartCenter g)
    (_dragVectorStart g) (_initialModelMatrix g) (_highlightedId g)
    (_outlineStage g) (_edgeDetectionStage g) (onUpdate g) (enableRotate g) v
    (modelMatrixOf g) (emitted g) (preUpdate_listener g)
    (scene_has_primitives g) (scene_has_outlineStage g).

Definition set_modelMatrixOf v (g : Gizmo) : Gizmo :=
  mkGizmo (object g) (center g) (axisLength g) (_width g) (_centerRadius g)
    (_mode g) (_activeScale g) (_primitives g) (_axisPrimitives g)
    (_colliders g) (_handler g) (_isDragging g) (_dragAxisName g)
    (_dragPlane g) (_dragStartPoint g) (_dragStartCenter g)
    (_dragVectorStart g) (_initialModelMatrix g) (_highlightedId g)
    (_outlineStage g) (_edgeDetectionStage g) (onUpdate g) (enableRotate g)
    (enableTranslate g) v (emitted g) (preUpdate_listener g)
    (scene_has_primitives g) (scene_has_outlineStage g).

Definition set_emitted v (g : Gizmo) : Gizmo :=
  mkGizmo (object g) (center g) (axisLength g) (_width g) (_centerRadius g)
    (_mode g) (_activeScale g) (_primitives g) (_axisPrimitives g)
    (_colliders g) (_handler g) (_isDragging g) (_dragAxisName g)
    (_dragPlane g) (_dragStartPoint g) (_dragStartCenter g)
    (_dragVectorStart g) (_initialModelMatrix g) (_highlightedId g)
    (_outlineStage g) (_edgeDetectionStage g) (onUpdate g) (enableRotate g)
    (enableTranslate g) (modelMatrixOf g) v (preUpdate_listener g)
    (scene_has_primitives g) (scene_has_outlineStage g).

Definition set_preUpdate_listener v (g : Gizmo) : Gizmo :=
  mkGizmo (object g) (center g) (axisLength g) (_width g) (_centerRadius g)
    (_mode g) (_activeScale g) (_primitives g) (_axisPrimitives g)
    (_colliders g) (_handler g) (_isDragging g) (_dragAxisName g)
    (_dragPlane g) (_dragStartPoint g) (_dragStartCenter g)
    (_dragVectorStart g) (_initialModelMatrix g) (_highlightedId g)
    (_outlineStage g) (_edgeDetectionStage g) (onUpdate g) (enableRotate g)
    (enableTranslate g) (modelMatrixOf g) (emitted g) v
    (scene_has_primitives g) (scene_has_outlineStage g).

Definition set_scene_has_primitives v (g : Gizmo) : Gizmo :=
  mkGizmo (object g) (center g) (axisLength g) (_width g) (_centerRadius g)
    (_mode g) (_activeScale g) (_primitives g) (_axisPrimitives g)
    (_colliders g) (_handler g) (_isDragging g) (_dragAxisName g)
    (_dragPlane g) (_dragStartPoint g) (_dragStartCenter g)
    (_dragVectorStart g) (_initialModelMatrix g) (_highlightedId g)
    (_outlineStage g) (_edgeDetectionStage g) (onUpdate g) (enableRotate g)
    (enableTranslate g) (modelMatrixOf g) (emitted g) (preUpdate_listener g)
    v (scene_has_outlineStage g).

Definition set_scene_has_outlineStage v (g : Gizmo) : Gizmo :=
  mkGizmo (object g) (center g) (axisLength g) (_width g) (_centerRadius g)
    (_mode g) (_activeScale g) (_primitives g) (_axisPrimitives g)
    (_colliders g) (_handler g) (_isDragging g) (_dragAxisName g)
    (_dragPlane g) (_dragStartPoint g) (_dragStartCenter g)
    (_dragVectorStart g) (_initialModelMatrix g) (_highlightedId g)
    (_outlineStage g) (_edgeDetectionStage g) (onUpdate g) (enableRotate g)
    (enableTranslate g) (modelMatrixOf g) (emitted g) (preUpdate_listener g)
    (scene_has_primitives g) v.

(* ================================================================== *)
(** ** The class [Gizmo] *)

Section Engine.

Context (C : Cesium) (V : Viewer).

(** *** [getTransformState] *)

(** the local [cleanScale] *)
Definition cleanScale (val : R) : R :=
  if Rlt_dec (JsMath.abs (val - 1)) 0.00001 then 1
  else JsMath.toFixed 3 val.

(** the local [toDegrees] *)
Definition toDegrees (rad : R) : R :=
  let rad := if Rlt_dec (JsMath.abs rad) 1e-10 then 0 else rad in
  let degree := JsMath.toDegrees rad in
  let degree := JsMath.rem degree 360 in
  let degree := if Rlt_dec degree 0 then degree + 360 else degree in
  let degree := if Rlt_dec (JsMath.abs (degree - 360)) 0.01 then 0 else degree in
  let degree := if Rlt_dec (JsMath.abs degree) 0.01 then 0 else degree in
  JsMath.toFixed 2 degree.

Definition getTransformState (g : Gizmo) : option TransformState :=
  match object g, center g with
  | Some o, Some _ =>
      let modelMatrix := modelMatrixOf g (ref o) in
      let position := Matrix4.getTranslation modelMatrix in
      let scale := Matrix4.getScale modelMatrix in
      let rotationMatrix := Matrix4.getMatrix3 modelMatrix in
      let column0 := Cartesian3.normalize (Matrix3.getColumn rotationMatrix 0) in
      let column1 := Cartesian3.normalize (Matrix3.getColumn rotationMatrix 1) in
      let column2 := Cartesian3.normalize (Matrix3.getColumn rotationMatrix 2) in
      let rotationMatrix := Matrix3.setColumn rotationMatrix 0 column0 in
      let rotationMatrix := Matrix3.setColumn rotationMatrix 1 column1 in
      let rotationMatrix := Matrix3.setColumn rotationMatrix 2 column2 in
      let enuMatrix := eastNorthUpToFixedFrame C position in
      let enuRotation := Matrix4.getMatrix3 enuMatrix in
      let enuRotationInverse := Matrix3_inverse C enuRotation in
      let localRotation := Matrix3.multiply enuRotationInverse rotationMatrix in
      let hpr := hprFromRotationMatrix C localRotation in
      Some {| position :=
                {| px := JsMath.toFixed 2 (cx position);
                   py := JsMath.toFixed 2 (cy position);
                   pz := JsMath.toFixed 2 (cz position) |};
              rotation :=
                {| heading := toDegrees (heading hpr);
                   pitch := toDegrees (pitch hpr);
                   roll := toDegrees (roll hpr) |};
              scale_ :=
                {| px := cleanScale (cx scale);
                   py := cleanScale (cy scale);
                   pz := cleanScale (cz scale) |};
              modelMatrix := modelMatrix |}
  | _, _ => None
  end.

(** [this.onUpdate && this.onUpdate(this.getTransformState())] *)
Definition fireUpdate (g : Gizmo) : Gizmo :=
  if onUpdate g then set_emitted (getTransformState g :: emitted g) g else g.

(** *** Highlight, outline and reset *)

Definition restoreHighlight (g : Gizmo) : Gizmo :=
  match _highlightedId g with
  | Some _ => set_highlightedId None g
  | None => g
  end.

Definition highlightPrimitive (i : GizmoId) (g : Gizmo) : Gizmo :=
  set_highlightedId (Some i) g.

Definition updateOutlineSelection (g : Gizmo) : Gizmo :=
  match _edgeDetectionStage g with
  | None => g
  | Some _ =>
      match object g with
      | Some o =>
          if isModelOrTileset o
          then set_edgeDetectionStage (Some [o]) g
          else set_edgeDetectionStage (Some []) g
      | None => set_edgeDetectionStage (Some []) g
      end
  end.

Definition resetState (g : Gizmo) : Gizmo :=
  let g := set_isDragging false g in
  let g := set_dragAxisName "" g in
  let g := set_dragPlane None g in
  let g := set_activeScale (mkC3 1 1 1) g in
  let g := restoreHighlight g in
  let g := set_highlightedId None g in
  let g := if negb (enableRotate g) then set_enableRotate true g else g in
  let g := if negb (enableTranslate g) then set_enableTranslate true g else g in
  g.

Definition detach (g : Gizmo) : Gizmo :=
  let g := resetState g in
  let g := set_object None g in
  let g := set_center None g in
  let g := set_primitives [] g in
  let g := set_colliders [] g in
  let g := set_axisPrimitives [] g in
  match _edgeDetectionStage g with
  | Some _ => set_edgeDetectionStage (Some []) g
  | None => g
  end.

Definition parseCenter (g : Gizmo) : Gizmo :=
  match object g with
  | Some o =>
      if isModelOrTileset o
      then set_center (Some (boundingSphere_center V o)) g
      else set_center (Some (asCartesian3 V o)) g
  | None => set_center None g
  end.

(** *** Handles and colliders *)

(** [this._primitives.add(p); this._axisPrimitives[key] = p] for a new
    primitive [p], which is shown and placed by the identity matrix. *)
Definition addPrimitive (key : string) (g : Gizmo) : Gizmo :=
  let g := set_primitives (_primitives g ++ [key]) g in
  set_axisPrimitives
    (dict_set (_axisPrimitives g) key (mkPrimitive true Matrix4.IDENTITY)) g.

Definition boxCollider (key : string) (i : GizmoId) (min max : Cartesian3)
  : GizmoCollider :=
  mkCollider i BOX min max key None None None None None.

Definition addCollider (c : GizmoCollider) (g : Gizmo) : Gizmo :=
  set_colliders (_colliders g ++ [c]) g.

Definition createCenterGizmo (g : Gizmo) : Gizmo :=
  let type := match _mode g with scale => ofMode scale | _ => center_type end in
  let id := mkId CENTER type "CENTER" in
  let radius := _centerRadius g in
  let g := addPrimitive "CENTER" g in
  addCollider
    (boxCollider "CENTER" id (mkC3 (- radius) (- radius) (- radius))
                 (mkC3 radius radius radius)) g.

Definition axisBox (a : Axis) (colliderWidth totalLen : R)
  : Cartesian3 * Cartesian3 :=
  match a with
  | X => (mkC3 0 (- colliderWidth) (- colliderWidth),
          mkC3 totalLen colliderWidth colliderWidth)
  | Y => (mkC3 (- colliderWidth) 0 (- colliderWidth),
          mkC3 colliderWidth totalLen colliderWidth)
  | _ => (mkC3 (- colliderWidth) (- colliderWidth) 0,
          mkC3 colliderWidth colliderWidth totalLen)
  end.

Definition createTranslationGizmo (g : Gizmo) : Gizmo :=
  let perAxis (g : Gizmo) (a : Axis) : Gizmo :=
    let gizmoId := mkId a (ofMode translate) ("TRANS_" ++ axisName a) in
    let arrowLength := 0.15 in
    let lineLength := 1.0 in
    let keyLine := axisName a ++ "_line" in
    let keyArrow := axisName a ++ "_arrow" in
    let g := addPrimitive keyLine g in
    let g := addPrimitive keyArrow g in
    let colliderWidth := 0.1 in
    let totalLen := lineLength + arrowLength in
    let '(min, max) := axisBox a colliderWidth totalLen in
    addCollider (boxCollider keyLine gizmoId min max) g in
  let g := fold_left perAxis [X; Y; Z] g in
  let start := 0.15 in
  let end_ := 0.45 in
  let thickness := 0.01 in
  let planes :=
    [ (XY, mkC3 start start (- thickness), mkC3 end_ end_ thickness);
      (YZ, mkC3 (- thickness) start start, mkC3 thickness end_ end_);
      (ZX, mkC3 start (- thickness) start, mkC3 end_ thickness end_) ] in
  let perPlane (g : Gizmo) (plane : Axis * Cartesian3 * Cartesian3) : Gizmo :=
    let '(a, min, max) := plane in
    let gizmoId := mkId a (ofMode translate) ("PLANE_" ++ axisName a) in
    let key := "PLANE_" ++ axisName a in
    let g := addPrimitive key g in
    addCollider (boxCollider key gizmoId min max) g in
  fold_left perPlane planes g.

Definition createRotationGizmo (g : Gizmo) : Gizmo :=
  let radius := 1.0 in
  let perAxis (g : Gizmo) (a : Axis) : Gizmo :=
    let gizmoId := mkId a (ofMode rotate) ("ROT_" ++ axisName a) in
    let g := addPrimitive (axisName a ++ "_fan") g in
    let g := addPrimitive (axisName a ++ "_rim") g in
    let tube := 0.05 in
    let r := radius + tube in
    let '(min, max, ringNormalAxis) :=
      match a with
      | Z => (mkC3 0 0 (- tube), mkC3 r r tube, 2%nat)
      | X => (mkC3 (- tube) 0 0, mkC3 tube r r, 0%nat)
      | _ => (mkC3 0 (- tube) 0, mkC3 r tube r, 1%nat)
      end in
    addCollider
      (mkCollider gizmoId SECTOR min max (axisName a)
                  (Some radius) (Some tube) (Some ringNormalAxis)
                  (Some 0) (Some (PI / 2))) g in
  fold_left perAxis [X; Y; Z] g.

Definition createScaleGizmo (g : Gizmo) : Gizmo :=
  let perAxis (g : Gizmo) (a : Axis) : Gizmo :=
    let gizmoId := mkId a (ofMode scale) ("SCALE_" ++ axisName a) in
    let keyLine := axisName a ++ "_line" in
    let keyBox := axisName a ++ "_box" in
    let g := addPrimitive keyLine g in
    let g := addPrimitive keyBox g in
    let colliderWidth := 0.1 in
    let '(min, max) := axisBox a colliderWidth 1.1 in
    addCollider (boxCollider keyLine gizmoId min max) g in
  fold_left perAxis [X; Y; Z] g.

Definition createGizmo (g : Gizmo) : Gizmo :=
  let g := set_primitives [] g in
  let g := set_axisPrimitives [] g in
  let g := set_colliders [] g in
  let g := match _mode g with
           | translate => createTranslationGizmo g
           | rotate => createRotationGizmo g
           | scale => createScaleGizmo g
           end in
  createCenterGizmo g.

(** *** The public surface: [mode], [bindObject] *)

(** [set mode(val)] *)
Definition set_mode_property (val : TransformMode) (g : Gizmo) : Gizmo :=
  if negb (Mode_eqb (_mode g) val)
  then createGizmo (set_mode val g)
  else g.

Definition bindObject (obj : option BoundObject) (g : Gizmo) : Gizmo :=
  match obj with
  | None => detach g
  | Some o =>
      if match object g with Some o' => same_object o' o | None => false end
      then g
      else
        let g := resetState g in
        let g := set_object (Some o) g in
        let g := parseCenter g in
        let g := createGizmo g in
        let g := updateOutlineSelection g in
        fireUpdate g
  end.

(** *** The frame update *)

(** [p.modelMatrix = m] for the primitive under [key], if there is one. *)
Definition placePrimitive (key : string) (m : Matrix4) (g : Gizmo) : Gizmo :=
  match dict_get (_axisPrimitives g) key with
  | Some p =>
      set_axisPrimitives
        (dict_set (_axisPrimitives g) key (mkPrimitive (show p) m)) g
  | None => g
  end.

Definition direction_of (a : Axis) : Cartesian3 :=
  match a with
  | X => Cartesian3.UNIT_X
  | Y => Cartesian3.UNIT_Y
  | _ => Cartesian3.UNIT_Z
  end.

(** The angle of the camera direction in the plane of the rotation
    handle [a], as [update] computes it. *)
Definition viewAngle (a : Axis) (localCameraDir : Cartesian3) : R :=
  match a with
  | Z => JsMath.atan2 (cy localCameraDir) (cx localCameraDir)
  | X => JsMath.atan2 (cz localCameraDir) (cy localCameraDir)
  | Y => JsMath.atan2 (cx localCameraDir) (cz localCameraDir)
  | _ => 0
  end.

(** [snapAngle] of [update]. *)
Definition snapAngle (angle : R) : R :=
  let step := PI / 2 in
  JsMath.floor (angle / step) * step.

(** The callback of [axes.forEach] in [update], for the axis [a]. *)
Definition updateAxis (baseScale : R) (enuMatrix : Matrix4)
           (localCameraDir : Cartesian3) (g : Gizmo) (a : Axis) : Gizmo :=
  let axisDragScale :=
    match a with
    | X => cx (_activeScale g)
    | Y => cy (_activeScale g)
    | _ => cz (_activeScale g)
    end in
  let totalLen := baseScale * axisDragScale in
  match _mode g with
  | rotate =>
      let keyFan := axisName a ++ "_fan" in
      let keyRim := axisName a ++ "_rim" in
      match dict_get (_axisPrimitives g) keyFan,
            dict_get (_axisPrimitives g) keyRim with
      | Some _, Some _ =>
          let angle := viewAngle a localCameraDir in
          let rotationAxis := direction_of a in
          let snapAngle := snapAngle angle in
          let quadrantRotation :=
            rotationFromAxisAngle C rotationAxis snapAngle in
          let quadrantMatrix :=
            Matrix4.fromRotationTranslation quadrantRotation in
          let scaleM :=
            Matrix4.fromScale (mkC3 baseScale baseScale baseScale) in
          let m := Matrix4.multiply quadrantMatrix scaleM in
          let m := Matrix4.multiply enuMatrix m in
          placePrimitive keyRim m (placePrimitive keyFan m g)
      | _, _ => g
      end
  | _ =>
      let lineScaleMatrix :=
        Matrix4.fromScale (mkC3 totalLen totalLen totalLen) in
      let lineModelMatrix := Matrix4.multiply enuMatrix lineScaleMatrix in
      let rotateMatrix :=
        match _mode g, a with
        | translate, X =>
            Matrix4.fromRotationTranslation
              (Matrix3.fromRotationY (JsMath.toRadians 90))
        | translate, Y =>
            Matrix4.fromRotationTranslation
              (Matrix3.fromRotationX (JsMath.toRadians (-90)))
        | _, _ => Matrix4.IDENTITY
        end in
      let tipScaleMatrix :=
        Matrix4.fromScale (mkC3 baseScale baseScale baseScale) in
      let tipOffsetDist :=
        match _mode g with
        | translate => totalLen + 0.075 * baseScale
        | _ => totalLen
        end in
      let offset :=
        Cartesian3.multiplyByScalar (direction_of a) tipOffsetDist in
      let translateMatrix := Matrix4.fromTranslation offset in
      let tipModelMatrix := Matrix4.multiply rotateMatrix tipScaleMatrix in
      let tipModelMatrix := Matrix4.multiply translateMatrix tipModelMatrix in
      let tipModelMatrix := Matrix4.multiply enuMatrix tipModelMatrix in
      let keyLine := axisName a ++ "_line" in
      let keyTip :=
        match dict_get (_axisPrimitives g) (axisName a ++ "_arrow") with
        | Some _ => axisName a ++ "_arrow"
        | None => axisName a ++ "_box"
        end in
      placePrimitive keyTip tipModelMatrix
        (placePrimitive keyLine lineModelMatrix g)
  end.

(** The camera direction in the local frame of the gizmo. *)
Definition localCameraDirection (inverseEnu : Matrix4) (center : Cartesian3)
  : Cartesian3 :=
  let centerToCamera := Cartesian3.subtract (camera_position V) center in
  let localCameraDir :=
    Matrix4.multiplyByPointAsVector inverseEnu centerToCamera in
  Cartesian3.normalize localCameraDir.

(** The placement that the rotate branch of [updateAxis] computes for
    the fan and the rim of the handle [a], for the snapped angle [snap]. *)
Definition sectorPlacement (baseScale : R) (enuMatrix : Matrix4)
           (a : Axis) (snap : R) : Matrix4 :=
  Matrix4.multiply enuMatrix
    (Matrix4.multiply
       (Matrix4.fromRotationTranslation
          (rotationFromAxisAngle C (direction_of a) snap))
       (Matrix4.fromScale (mkC3 baseScale baseScale baseScale))).

Definition update (g : Gizmo) : Gizmo :=
  match center g with
  | None => g
  | Some center =>
    let pixelSize :=
      getPixelSize V center (canvas_clientWidth V) (canvas_clientHeight V) in
    let baseScale := pixelSize * axisLength g in
    let enuMatrix := eastNorthUpToFixedFrame C center in
    match Matrix4_inverse C enuMatrix with
    | None => g
    | Some inverseEnu =>
      let localCameraDir := localCameraDirection inverseEnu center in
      let g :=
        let centerScale :=
          if match _mode g with scale => true | _ => false end
             && _isDragging g && String.eqb (_dragAxisName g) "CENTER"
          then baseScale * cx (_activeScale g) else baseScale in
        let scaleMatrix :=
          Matrix4.fromScale (mkC3 centerScale centerScale centerScale) in
        placePrimitive "CENTER" (Matrix4.multiply enuMatrix scaleMatrix) g in
      let g :=
        fold_left (updateAxis baseScale enuMatrix localCameraDir) [X; Y; Z] g in
      match _mode g with
      | translate =>
          let planeScaleMatrix :=
            Matrix4.fromScale (mkC3 baseScale baseScale baseScale) in
          let planeModelMatrix := Matrix4.multiply enuMatrix planeScaleMatrix in
          fold_left
            (fun g plane => placePrimitive ("PLANE_" ++ plane) planeModelMatrix g)
            ["XY"; "YZ"; "ZX"] g
      | _ => g
      end
    end
  end.

(** *** Ray casting *)

(** What one iteration of the loop of [rayCastGizmo] finds for a collider
    once the ray is in the collider's local space: [Some t] with the
    entry distance [t = interval.start] when the collider is hit, [None]
    when the iteration ends without a hit. *)
Definition localHit (localRay : Ray) (collider : GizmoCollider) : option R :=
  let localAABB := mkAABB (localMin collider) (localMax collider) in
  match rayAxisAlignedBoundingBox C localRay localAABB with
  | None => None
  | Some interval =>
      match ctype collider with
      | SECTOR =>
          let t := start interval in
          let hitPoint := Ray_getPoint localRay t in
          let buffer :=
            (match tube collider with
             | Some tb => if Req_dec_T tb 0 then 0.05 else tb
             | None => 0.05
             end) * 4.0 in
          let dist := Cartesian3.magnitude hitPoint in
          (* without a radius the comparison is against NaN and fails *)
          if match radius collider with
             | Some r => if Rlt_dec (r + buffer) dist then true else false
             | None => false
             end
          then None
          else
            let '(u, v) :=
              match ringNormalAxis collider with
              | Some 2%nat => (cx hitPoint, cy hitPoint)
              | Some 0%nat => (cy hitPoint, cz hitPoint)
              | Some 1%nat => (cz hitPoint, cx hitPoint)
              | _ => (0, 0)
              end in
            if Rlt_dec u (-0.05) then None
            else if Rlt_dec v (-0.05) then None
            else Some (start interval)
      | BOX => Some (start interval)
      end
  end.

(** One collider against the world-space ray: the primitive registered
    under the collider's key must exist, be shown, and have an
    invertible placement. *)
Definition colliderHit (g : Gizmo) (ray : Ray) (collider : GizmoCollider)
  : option R :=
  match dict_get (_axisPrimitives g) (primitiveKey collider) with
  | None => None
  | Some primitive =>
      if negb (show primitive) then None
      else
        match Matrix4_inverse C (p_modelMatrix primitive) with
        | None => None
        | Some inverseModelMatrix =>
            let localRay :=
              mkRay (Matrix4.multiplyByPoint inverseModelMatrix (origin ray))
                    (Matrix4.multiplyByPointAsVector inverseModelMatrix
                                                     (direction ray)) in
            localHit localRay collider
        end
  end.

(** The distance compared by the loop: [interval.start], less 1000 for
    the CENTER handle. *)
Definition pickDistance (collider : GizmoCollider) (t : R) : R :=
  if Axis_eqb (axis (id collider)) CENTER then t - 1000.0 else t.

(** The loop of [rayCastGizmo] over the colliders, carrying
    [minDistance] and [closestId]. *)
Fixpoint castLoop (g : Gizmo) (ray : Ray) (colliders : list GizmoCollider)
         (minDistance : R) (closestId : option GizmoId) : option GizmoId :=
  match colliders with
  | [] => closestId
  | collider :: rest =>
      match colliderHit g ray collider with
      | None => castLoop g ray rest minDistance closestId
      | Some t =>
          let dist := pickDistance collider t in
          if Rlt_dec dist minDistance
          then castLoop g ray rest dist (Some (id collider))
          else castLoop g ray rest minDistance closestId
      end
  end.

Definition rayCastGizmo (g : Gizmo) (position : Cartesian2) : option GizmoId :=
  match _colliders g with
  | [] => None
  | _ =>
      match getPickRay V position with
      | None => None
      | Some ray => castLoop g ray (_colliders g) JsMath.MAX_VALUE None
      end
  end.

(** *** Pointer events *)

Definition GizmoId_eqb (a b : GizmoId) : bool :=
  Axis_eqb (axis a) (axis b)
  && match type a, type b with
     | ofMode m, ofMode m' => Mode_eqb m m'
     | center_type, center_type => true
     | _, _ => false
     end
  && String.eqb (name a) (name b).

Definition handleHover (position : Cartesian2) (g : Gizmo) : Gizmo :=
  let pickedId :=
    match rayCastGizmo g position with
    | Some i => Some i
    | None =>
        match scene_pick V position with
        | Some picked =>
            if picked_has_axis picked then Some (picked_id picked) else None
        | None => None
        end
    end in
  match pickedId with
  | Some i =>
      (* the identity test [_highlightedId !== pickedId] on handle ids *)
      if match _highlightedId g with
         | Some h => GizmoId_eqb h i
         | None => false
         end
      then g
      else highlightPrimitive i (restoreHighlight g)
  | None => restoreHighlight g
  end.

(** The column of the local frame named by an axis letter, or the zero
    vector left by [new Cesium.Cartesian3()]. *)
Definition frameAxis (enuMatrix : Matrix4) (a : option string) : Cartesian3 :=
  match a with
  | Some "X" => Matrix4.getColumn enuMatrix 0
  | Some "Y" => Matrix4.getColumn enuMatrix 1
  | Some "Z" => Matrix4.getColumn enuMatrix 2
  | _ => Cartesian3.ZERO
  end.

Definition startDrag (i : GizmoId) (position : Cartesian2) (g : Gizmo) : Gizmo :=
  if Axis_eqb (axis i) CENTER && negb (Mode_eqb (_mode g) scale) then g
  else
    let g := set_enableRotate false g in
    let g := set_enableTranslate false g in
    let g := set_isDragging true g in
    let g := set_dragAxisName (name i) g in
    let g := updateOutlineSelection g in
    match center g with
    | None => g
    | Some center =>
        let g := set_dragStartCenter center g in
        let g :=
          match object g with
          | Some o =>
              if isModelOrTileset o
              then set_initialModelMatrix (modelMatrixOf g (ref o)) g
              else set_initialModelMatrix Matrix4.IDENTITY g
          | None => set_initialModelMatrix Matrix4.IDENTITY g
          end in
        let axisName := axis i in
        let enuMatrix := eastNorthUpToFixedFrame C center in
        let normal :=
          match _mode g with
          | translate =>
              match axisName with
              | XY => Matrix4.getColumn enuMatrix 2
              | YZ => Matrix4.getColumn enuMatrix 0
              | ZX => Matrix4.getColumn enuMatrix 1
              | _ => camera_direction V
              end
          | scale => camera_direction V
          | rotate =>
              match axisName with
              | CENTER => camera_direction V
              | X => Matrix4.getColumn enuMatrix 0
              | Y => Matrix4.getColumn enuMatrix 1
              | Z => Matrix4.getColumn enuMatrix 2
              | _ => Cartesian3.ZERO
              end
          end in
        let normal := Cartesian3.normalize normal in
        let plane := Plane_fromPointNormal center normal in
        let g := set_dragPlane (Some plane) g in
        match getPickRay V position with
        | None => g
        | Some ray =>
            match rayPlane C ray plane with
            | None => g
            | Some intersect =>
                let g := set_dragStartPoint intersect g in
                set_dragVectorStart
                  (Cartesian3.normalize (Cartesian3.subtract intersect center)) g
            end
        end
    end.

(** [pickedId] of [handleDown]: the ray cast, then the host pick. *)
Definition pickedOnDown (g : Gizmo) (position : Cartesian2) : option GizmoId :=
  match rayCastGizmo g position with
  | Some i => Some i
  | None =>
      match scene_pick V position with
      | Some picked => Some (picked_id picked)
      | None => None
      end
  end.

Definition handleDown (position : Cartesian2) (g : Gizmo) : Gizmo :=
  match pickedOnDown g position with
  | Some i => startDrag i position g
  | None => g
  end.

Definition handleUp (g : Gizmo) : Gizmo :=
  if _isDragging g then
    let g := set_isDragging false g in
    let g := set_enableRotate true g in
    let g := set_enableTranslate true g in
    let g := set_activeScale (mkC3 1 1 1) g in
    match _edgeDetectionStage g with
    | Some _ => set_edgeDetectionStage (Some []) g
    | None => g
    end
  else g.

(** *** Drag arithmetic *)

(** [Cesium.Matrix4.multiply(m, this._initialModelMatrix,
    this.object.modelMatrix)] when the object is a model or a tileset. *)
Definition writeModelMatrix (m : Matrix4) (g : Gizmo) : Gizmo :=
  match object g with
  | Some o =>
      if isModelOrTileset o
      then
        let result := Matrix4.multiply m (_initialModelMatrix g) in
        set_modelMatrixOf
          (fun r => if Nat.eqb r (ref o) then result else modelMatrixOf g r) g
      else g
  | None => g
  end.

Definition applyTransform (transformMatrix : Matrix4) (g : Gizmo) : Gizmo :=
  match center g with
  | None => g
  | Some center =>
      let toOrigin := Matrix4.fromTranslation (Cartesian3.negate center) in
      let toCenter := Matrix4.fromTranslation center in
      let m := Matrix4.multiply transformMatrix toOrigin in
      let m := Matrix4.multiply toCenter m in
      writeModelMatrix m g
  end.

Definition updateTranslate (newPoint : Cartesian3) (g : Gizmo) : Gizmo :=
  let moveVector := Cartesian3.subtract newPoint (_dragStartPoint g) in
  let enuMatrix := eastNorthUpToFixedFrame C (_dragStartCenter g) in
  let axisName := _dragAxisName g in
  let offset :=
    if includes "PLANE" axisName then moveVector
    else
      let axisVector := frameAxis enuMatrix (axisOfName axisName) in
      let axisVector := Cartesian3.normalize axisVector in
      let scalar := Cartesian3.dot moveVector axisVector in
      Cartesian3.multiplyByScalar axisVector scalar in
  let newCenter := Cartesian3.add (_dragStartCenter g) offset in
  let g := set_center (Some newCenter) g in
  let translation := Cartesian3.subtract newCenter (_dragStartCenter g) in
  let m := Matrix4.fromTranslation translation in
  writeModelMatrix m g.

(** The unsigned angle of [updateRotate], between the stored start
    direction and the direction from [center] to [newPoint]. *)
Definition dragAngle (g : Gizmo) (center newPoint : Cartesian3) : R :=
  let currentVector := Cartesian3.subtract newPoint center in
  let currentVector := Cartesian3.normalize currentVector in
  let dot := Cartesian3.dot (_dragVectorStart g) currentVector in
  acos (JsMath.clamp dot (-1.0) 1.0).

(** The axis vector of [updateRotate] and [updateScale]. *)
Definition dragAxisVector (g : Gizmo) (center : Cartesian3) : Cartesian3 :=
  let enuMatrix := eastNorthUpToFixedFrame C center in
  Cartesian3.normalize (frameAxis enuMatrix (axisOfName (_dragAxisName g))).

Definition updateRotate (newPoint : Cartesian3) (g : Gizmo) : Gizmo :=
  match center g with
  | None => g (* excluded by the caller's guard *)
  | Some center =>
      let currentVector := Cartesian3.subtract newPoint center in
      let currentVector := Cartesian3.normalize currentVector in
      let angle := dragAngle g center newPoint in
      if Req_dec_T angle 0 then g
      else
        let cross := Cartesian3.cross (_dragVectorStart g) currentVector in
        let axisVector := dragAxisVector g center in
        let sign := Cartesian3.dot cross axisVector in
        let angle := if Rlt_dec sign 0 then - angle else angle in
        let rotationMatrix :=
          Matrix4.fromRotationTranslation
            (rotationFromAxisAngle C axisVector angle) in
        applyTransform rotationMatrix g
  end.

(** [Math.max(0.01, 1.0 + change)], the factor of a scale tick. *)
Definition flooredFactor (change : R) : R :=
  JsMath.max 0.01 (1.0 + change).

Definition updateScale (newPoint : Cartesian3) (g : Gizmo) : Gizmo :=
  match center g with
  | None => g (* excluded by the caller's guard *)
  | Some center =>
      let moveVector := Cartesian3.subtract newPoint (_dragStartPoint g) in
      let enuMatrix := eastNorthUpToFixedFrame C center in
      let pixelSize := getPixelSize V center (canvas_width V) (canvas_height V) in
      let currentLen := axisLength g * pixelSize in
      let sensitivity := 1.0 / currentLen in
      if String.eqb (_dragAxisName g) "CENTER" then
        let cameraUp := camera_up V in
        let dragDist := Cartesian3.dot moveVector cameraUp in
        let scaleFactor := flooredFactor (dragDist * sensitivity * 2.0) in
        let g := set_activeScale (mkC3 scaleFactor scaleFactor scaleFactor) g in
        let scaleMatrix :=
          Matrix4.fromScale (mkC3 scaleFactor scaleFactor scaleFactor) in
        applyTransform scaleMatrix g
      else
        let axis := axisOfName (_dragAxisName g) in
        let axisVector := dragAxisVector g center in
        let dragDist := Cartesian3.dot moveVector axisVector in
        let scaleFactor := flooredFactor (dragDist * sensitivity) in
        let pick (letter : string) (old : R) : R :=
          match axis with
          | Some l => if String.eqb l letter then scaleFactor else old
          | None => old
          end in
        let a := _activeScale g in
        let g :=
          set_activeScale
            (mkC3 (pick "X" (cx a)) (pick "Y" (cy a)) (pick "Z" (cz a))) g in
        let rotationR := Matrix4.getMatrix3 enuMatrix in
        let scaleVec := mkC3 (pick "X" 1) (pick "Y" 1) (pick "Z" 1) in
        let localScale := Matrix3.fromScale scaleVec in
        let rotationR_T := Matrix3.transpose rotationR in
        let temp := Matrix3.multiply localScale rotationR_T in
        let orientedScale := Matrix3.multiply rotationR temp in
        let scaleMatrix := Matrix4.fromRotationTranslation orientedScale in
        applyTransform scaleMatrix g
  end.

Definition handleDrag (position : Cartesian2) (g : Gizmo) : Gizmo :=
  match _dragPlane g, center g with
  | Some dragPlane, Some _ =>
      match getPickRay V position with
      | None => g
      | Some ray =>
          match rayPlane C ray dragPlane with
          | None => g
          | Some newPoint =>
              let g := match _mode g with
                       | translate => updateTranslate newPoint g
                       | rotate => updateRotate newPoint g
                       | scale => updateScale newPoint g
                       end in
              fireUpdate g
          end
      end
  | _, _ => g
  end.

(** The three input actions registered by [initControlEvents]; a
    destroyed handler delivers nothing. *)
Definition onMouseMove (endPosition : Cartesian2) (g : Gizmo) : Gizmo :=
  if _handler g then
    match object g with
    | None => g
    | Some _ =>
        if _isDragging g then handleDrag endPosition g
        else handleHover endPosition g
    end
  else g.

Definition onLeftDown (position : Cartesian2) (g : Gizmo) : Gizmo :=
  if _handler g then
    match object g with
    | None => g
    | Some _ => handleDown position g
    end
  else g.

Definition onLeftUp (g : Gizmo) : Gizmo :=
  if _handler g then
    match object g with
    | None => g
    | Some _ => handleUp g
    end
  else g.

(** *** [destroy] *)

Definition destroy (g : Gizmo) : Gizmo :=
  let g := set_preUpdate_listener false g in
  let g := set_scene_has_primitives false g in
  let g := if _outlineStage g then set_scene_has_outlineStage false g else g in
  if _handler g then set_handler false g else g.

(** *** The constructor *)

Definition initOutlineStage (g : Gizmo) : Gizmo :=
  if negb (isSilhouetteSupported V) then g
  else
    let g := set_edgeDetectionStage (Some []) g in
    let g := set_outlineStage true g in
    set_scene_has_outlineStage true g.

Definition initControlEvents (g : Gizmo) : Gizmo :=
  if _handler g then g else set_handler true g.

(** [new Gizmo({ viewer, object, axisWidth, mode, onUpdate })] in a host
    whose camera controls are enabled and whose objects have the model
    matrices [matrices]. *)
Definition constructor (obj : option BoundObject) (axisWidth : option R)
           (mode : option TransformMode) (callback : bool)
           (matrices : nat -> Matrix4) : Gizmo :=
  let g :=
    {| object := None;
       center := None;
       axisLength := 120;
       _width := match axisWidth with Some w => w | None => 5 end;
       _centerRadius := 0.05;
       _mode := match mode with Some m => m | None => translate end;
       _activeScale := mkC3 1 1 1;
       _primitives := [];
       _axisPrimitives := [];
       _colliders := [];
       _handler := false;
       _isDragging := false;
       _dragAxisName := "";
       _dragPlane := None;
       _dragStartPoint := Cartesian3.ZERO;
       _dragStartCenter := Cartesian3.ZERO;
       _dragVectorStart := Cartesian3.ZERO;
       _initialModelMatrix := Matrix4.IDENTITY;
       _highlightedId := None;
       _outlineStage := false;
       _edgeDetectionStage := None;
       onUpdate := false;
       enableRotate := true;
       enableTranslate := true;
       modelMatrixOf := matrices;
       emitted := [];
       preUpdate_listener := false;
       scene_has_primitives := true;
       scene_has_outlineStage := false |} in
  let g := initOutlineStage g in
  let g := initControlEvents g in
  let g := set_preUpdate_listener true g in
  let g :=
    mkGizmo (object g) (center g) (axisLength g) (_width g) (_centerRadius g)
            (_mode g) (_activeScale g) (_primitives g) (_axisPrimitives g)
            (_colliders g) (_handler g) (_isDragging g) (_dragAxisName g)
            (_dragPlane g) (_dragStartPoint g) (_dragStartCenter g)
            (_dragVectorStart g) (_initialModelMatrix g) (_highlightedId g)
            (_outlineStage g) (_edgeDetectionStage g) callback
            (enableRotate g) (enableTranslate g) (modelMatrixOf g)
            (emitted g) (preUpdate_listener g) (scene_has_primitives g)
            (scene_has_outlineStage g) in
  match obj with
  | Some o => bindObject (Some o) g
  | None => g
  end.

End Engine.

(* ================================================================== *)
(** ** A flat scene

    A small host on which the engine can be run: the local frame at a
    point is the world frame moved to that point, and the camera is
    orthographic, looking down the z axis from height 10, so that the
    pointer position [(u, v)] casts the ray from [(u, v, 10)] in direction
    [(0, 0, -1)].  Positions left of [u = -100] are off the canvas and
    produce no ray. *)

Module Scene0.

(** Inverse of a matrix made of a diagonal scale (without a zero) and a
    translation, the only placements this scene produces. *)
Definition inverse (m : Matrix4) : option Matrix4 :=
  let a := qx (m4c0 m) in
  let b := qy (m4c1 m) in
  let c := qz (m4c2 m) in
  Some (mkM4 (mkC4 (/ a) 0 0 0) (mkC4 0 (/ b) 0 0) (mkC4 0 0 (/ c) 0)
             (mkC4 (- qx (m4c3 m) / a) (- qy (m4c3 m) / b)
                   (- qz (m4c3 m) / c) 1)).

(** The rotation by [angle] about [axis], through the unit quaternion. *)
Definition fromAxisAngle (axis : Cartesian3) (angle : R) : Matrix3 :=
  let n := Cartesian3.normalize axis in
  let s := sin (angle / 2) in
  let x := cx n * s in
  let y := cy n * s in
  let z := cz n * s in
  let w := cos (angle / 2) in
  mkM3 (mkC3 (x * x - y * y - z * z + w * w) (2 * (x * y + z * w)) (2 * (x * z - y * w)))
       (mkC3 (2 * (x * y - z * w)) (- (x * x) + y * y - z * z + w * w) (2 * (y * z + x * w)))
       (mkC3 (2 * (x * z + y * w)) (2 * (y * z - x * w)) (- (x * x) - y * y + z * z + w * w)).

(** One slab of the ray/box test: the parameters at which the ray is
    between [lo] and [hi] on one coordinate, [None] standing for an
    unbounded end, or [inl tt] when there are none. *)
Definition slab (lo hi o d : R) : unit + (option R * option R) :=
  if Req_dec_T d 0 then
    if Rle_dec lo o then if Rle_dec o hi then inr (None, None) else inl tt
    else inl tt
  else
    let t1 := (lo - o) / d in
    let t2 := (hi - o) / d in
    inr (Some (Rmin t1 t2), Some (Rmax t1 t2)).

Definition meet (a b : unit + (option R * option R))
  : unit + (option R * option R) :=
  match a, b with
  | inr (l1, h1), inr (l2, h2) =>
      inr (match l1, l2 with
           | Some x, Some y => Some (Rmax x y)
           | Some x, None | None, Some x => Some x
           | None, None => None
           end,
           match h1, h2 with
           | Some x, Some y => Some (Rmin x y)
           | Some x, None | None, Some x => Some x
           | None, None => None
           end)
  | _, _ => inl tt
  end.

Definition rayBox (ray : Ray) (box : AxisAlignedBoundingBox) : option Interval :=
  let o := origin ray in
  let d := direction ray in
  let lo := minimum box in
  let hi := maximum box in
  match meet (slab (cx lo) (cx hi) (cx o) (cx d))
             (meet (slab (cy lo) (cy hi) (cy o) (cy d))
                   (slab (cz lo) (cz hi) (cz o) (cz d))) with
  | inr (Some tmin, Some tmax) =>
      if Rlt_dec tmax tmin then None
      else if Rlt_dec tmax 0 then None
      else Some (mkInterval tmin tmax)
  | _ => None
  end.

Definition intersectPlane (ray : Ray) (plane : Plane) : option Cartesian3 :=
  let denominator := Cartesian3.dot (normal plane) (direction ray) in
  if Rlt_dec (Rabs denominator) (1 / 10 ^ 15) then None
  else
    let t := (- distance plane - Cartesian3.dot (normal plane) (origin ray))
             / denominator in
    if Rlt_dec t 0 then None
    else Some (Cartesian3.add (origin ray)
                              (Cartesian3.multiplyByScalar (direction ray) t)).

Definition cesium : Cesium :=
  {| eastNorthUpToFixedFrame := Matrix4.fromTranslation;
     Matrix4_inverse := inverse;
     Matrix3_inverse := Matrix3.transpose;
     hprFromRotationMatrix :=
       fun m => mkHPR (JsMath.atan2 (cy (m3c0 m)) (cx (m3c0 m))) 0 0;
     rotationFromAxisAngle := fromAxisAngle;
     rayAxisAlignedBoundingBox := rayBox;
     rayPlane := intersectPlane |}.

Definition viewer : Viewer :=
  {| camera_position := mkC3 0 0 10;
     camera_direction := mkC3 0 0 (-1);
     camera_up := mkC3 0 1 0;
     getPickRay :=
       fun p => if Rlt_dec (c2x p) (-100) then None
                else Some (mkRay (mkC3 (c2x p) (c2y p) 10) (mkC3 0 0 (-1)));
     getPixelSize := fun _ _ _ => / 120;
     canvas_clientWidth := 800;
     canvas_clientHeight := 600;
     canvas_width := 800;
     canvas_height := 600;
     scene_pick := fun _ => None;
     boundingSphere_center := fun _ => Cartesian3.ZERO;
     asCartesian3 := fun _ => Cartesian3.ZERO;
     isSilhouetteSupported := true |}.

(** A model at the origin, with the identity as model matrix. *)
Definition model : BoundObject := mkObject 1 true.
Definition other_model : BoundObject := mkObject 2 true.

(** The gizmo constructed on [model] in a given mode, and the same after
    one frame. *)
Definition fresh (mode : TransformMode) : Gizmo :=
  constructor cesium viewer (Some model) None (Some mode) true
              (fun _ => Matrix4.IDENTITY).

Definition bound (mode : TransformMode) : Gizmo :=
  update cesium viewer (fresh mode).

(** The translate gizmo after a pointer-down on its X handle. *)
Definition dragging : Gizmo :=
  handleDown cesium viewer (mkC2 0.5 0) (bound translate).

(** The scale gizmo after a pointer-down on its CENTER handle, and after a
    pointer-down on its X handle. *)
Definition scalingCenter : Gizmo :=
  handleDown cesium viewer (mkC2 0 0) (bound scale).

Definition scalingX : Gizmo :=
  handleDown cesium viewer (mkC2 0.5 0) (bound scale).

(** A gizmo on a model whose matrix is the translation by
    (1.234, 0, 0). *)
Definition shifted : Gizmo :=
  constructor cesium viewer (Some model) None None true
              (fun _ => Matrix4.fromTranslation (mkC3 1.234 0 0)).

(** A primitive placed by the identity, as the primitives behind the
    colliders of [bound] are in this scene (the handles are one world
    unit long). *)
Definition placed : Primitive := mkPrimitive true Matrix4.IDENTITY.

(** The ray of the pointer position [(u, v)]. *)
Definition vertical (u v : R) : Ray := mkRay (mkC3 u v 10) (mkC3 0 0 (-1)).

End Scene0.

(* ================================================================== *)
(** ** The specification's formulas *)

Module Spec.



(** "snap ... by floor(angle / (pi/2)) * (pi/2)" *)
Definition quadrantSnap (angle : R) : R :=
  IZR (Zfloor (angle / (PI / 2))) * (PI / 2).

(** "x rounded to d decimal digits": a multiple of [10^-d] at most half
    a unit of the last digit away from [x]. *)
Definition roundedTo (d : nat) (x y : R) : Prop :=
  (exists k : BinNums.Z, y = IZR k / 10 ^ d) /\ Rabs (y - x) <= / 2 / 10 ^ d.

(** "angles are floor-wrapped into [0,360)": the angle in degrees, less
    the largest multiple of 360 that does not exceed it. *)
Definition wrapDegrees (rad : R) : R :=
  let deg := rad * (180 / PI) in
  deg - 360 * IZR (Zfloor (deg / 360)).

End Spec.

(* ================================================================== *)
(** ** Properties *)

(** *** Records and field assignments *)

Lemma Gizmo_eta (g : Gizmo) :
  g = mkGizmo (object g) (center g) (axisLength g) (_width g) (_centerRadius g)
              (_mode g) (_activeScale g) (_primitives g) (_axisPrimitives g)
              (_colliders g) (_handler g) (_isDragging g) (_dragAxisName g)
              (_dragPlane g) (_dragStartPoint g) (_dragStartCenter g)
              (_dragVectorStart g) (_initialModelMatrix g) (_highlightedId g)
              (_outlineStage g) (_edgeDetectionStage g) (onUpdate g)
              (enableRotate g) (enableTranslate g) (modelMatrixOf g)
              (emitted g) (preUpdate_listener g) (scene_has_primitives g)
              (scene_has_outlineStage g).
Proof. destruct g; reflexivity. Qed.

(** [fields] reduces the field reads of a state built by assignments. *)
Ltac fields :=
  cbn [negb set_object set_center set_mode set_activeScale set_primitives
    set_axisPrimitives set_colliders set_handler set_isDragging
    set_dragAxisName set_dragPlane set_dragStartPoint set_dragStartCenter
    set_dragVectorStart set_initialModelMatrix set_highlightedId
    set_outlineStage set_edgeDetectionStage set_enableRotate
    set_enableTranslate set_modelMatrixOf set_emitted
    set_preUpdate_listener set_scene_has_primitives
    set_scene_has_outlineStage object center axisLength _width
    _centerRadius _mode _activeScale _primitives _axisPrimitives _colliders
    _handler _isDragging _dragAxisName _dragPlane _dragStartPoint
    _dragStartCenter _dragVectorStart _initialModelMatrix _highlightedId
    _outlineStage _edgeDetectionStage onUpdate enableRotate enableTranslate
    modelMatrixOf emitted preUpdate_listener scene_has_primitives
    scene_has_outlineStage] in *.

Lemma same_object_refl (o : BoundObject) : same_object o o = true.
Proof.
  unfold same_object.
  rewrite Nat.eqb_refl, Bool.eqb_reflx; reflexivity.
Qed.

Lemma same_object_eq (a b : BoundObject) : same_object a b = true -> a = b.
Proof.
  destruct a as [ra ka], b as [rb kb]; unfold same_object; simpl.
  intro H; apply andb_true_iff in H; destruct H as [Hr Hk].
  apply Nat.eqb_eq in Hr; apply Bool.eqb_prop in Hk; subst; reflexivity.
Qed.

(** *** Arithmetic of the number helpers *)

Lemma pow10_pos (d : nat) : 0 < 10 ^ d.
Proof. apply pow_lt; lra. Qed.


Lemma clamp_unit_range (d : R) : -1 <= JsMath.clamp d (-1.0) 1.0 <= 1.
Proof.
  unfold JsMath.clamp.
  destruct (Rlt_dec d (-1.0)), (Rlt_dec 1.0 d); lra.
Qed.

Lemma max_floor (x : R) :
  0.01 <= JsMath.max 0.01 x
  /\ (x < 0.01 -> JsMath.max 0.01 x = 0.01)
  /\ (0.01 <= x -> JsMath.max 0.01 x = x).
Proof.
  unfold JsMath.max; repeat split.
  - apply Rmax_l.
  - intro H; apply Rmax_left; lra.
  - intro H; apply Rmax_right; lra.
Qed.

(** [toFixed d] rounds to [d] decimal digits. *)
Lemma toFixed_rounded (d : nat) (x : R) : Spec.roundedTo d x (JsMath.toFixed d x).
Proof.
  unfold Spec.roundedTo, JsMath.toFixed.
  pose proof (pow10_pos d) as Hp; set (p := 10 ^ d) in *.
  assert (Habs : forall k y : R, - / 2 <= k - y * p <= / 2 ->
                                 Rabs (k / p - y) <= / 2 / p).
  { intros k y Hk.
    replace (k / p - y) with ((k - y * p) * / p) by (field; lra).
    rewrite Rabs_mult, (Rabs_pos_eq (/ p))
      by (left; apply Rinv_0_lt_compat; exact Hp).
    apply Rmult_le_compat_r; [left; apply Rinv_0_lt_compat; exact Hp|].
    apply Rabs_le; lra. }
  destruct (Rle_dec 0 x) as [Hx|Hx].
  - split; [eexists; reflexivity|].
    apply Habs; pose proof (Zfloor_bound (x * p + / 2)); lra.
  - split.
    + exists (- Zfloor (- x * p + / 2))%Z; rewrite opp_IZR; field; lra.
    + pose proof (Zfloor_bound (- x * p + / 2)) as Hb.
      replace (- (IZR (Zfloor (- x * p + / 2)) / p) - x)
        with (- (IZR (Zfloor (- x * p + / 2)) / p - - x)) by ring.
      rewrite Rabs_Ropp; apply Habs; lra.
Qed.

(** Rounding keeps a value between two values that are themselves
    multiples of [10^-d]. *)
Lemma toFixed_between (d : nat) (lo hi : BinNums.Z) (x : R) :
  (0 <= lo)%Z -> IZR lo / 10 ^ d <= x <= IZR hi / 10 ^ d ->
  IZR lo / 10 ^ d <= JsMath.toFixed d x <= IZR hi / 10 ^ d.
Proof.
  intros Hlo [Hl Hh]; unfold JsMath.toFixed.
  pose proof (pow10_pos d) as Hp; set (p := 10 ^ d) in *.
  assert (H0 : 0 <= IZR lo) by (apply IZR_le in Hlo; exact Hlo).
  assert (Hx : 0 <= x).
  { apply Rle_trans with (IZR lo / p); [|exact Hl].
    apply Rmult_le_pos; [exact H0|left; apply Rinv_0_lt_compat; exact Hp]. }
  destruct (Rle_dec 0 x) as [_|Hn]; [|contradiction].
  assert (Hl' : IZR lo <= x * p).
  { apply Rmult_le_compat_r with (r := p) in Hl; [|lra].
    unfold Rdiv in Hl; rewrite Rmult_assoc, Rinv_l, Rmult_1_r in Hl; lra. }
  assert (Hh' : x * p <= IZR hi).
  { apply Rmult_le_compat_r with (r := p) in Hh; [|lra].
    unfold Rdiv in Hh; rewrite Rmult_assoc, Rinv_l, Rmult_1_r in Hh; lra. }
  pose proof (Zfloor_bound (x * p + / 2)) as Hb.
  assert (Hk1 : (lo <= Zfloor (x * p + / 2))%Z) by (apply Zfloor_lub; lra).
  assert (Hk2 : (Zfloor (x * p + / 2) <= hi)%Z).
  { assert (Hlt : (Zfloor (x * p + / 2) < hi + 1)%Z); [|lia].
    apply lt_IZR; rewrite plus_IZR; lra. }
  apply IZR_le in Hk1, Hk2.
  split; apply Rmult_le_compat_r;
    try (left; apply Rinv_0_lt_compat; exact Hp); assumption.
Qed.

(** The remainder of the division by 360 has the sign of the dividend and
    is less than 360 in absolute value. *)
Lemma rem_360 (x : R) :
  (0 <= x -> 0 <= JsMath.rem x 360 < 360)
  /\ (x < 0 -> -360 < JsMath.rem x 360 <= 0).
Proof.
  unfold JsMath.rem, JsMath.trunc; split; intro Hx.
  - destruct (Rle_dec 0 (x / 360)) as [_|Hn]; [|exfalso; apply Hn; lra].
    pose proof (Zfloor_bound (x / 360)); lra.
  - destruct (Rle_dec 0 (x / 360)) as [Hp|_]; [lra|].
    pose proof (Zfloor_bound (- (x / 360))); lra.
Qed.

Section Properties.

Context (C : Cesium) (V : Viewer).

(** *** Frames of the drag entry and exits *)

Lemma updateOutlineSelection_frame (g : Gizmo) :
  let g' := updateOutlineSelection g in
  _isDragging g' = _isDragging g /\ enableRotate g' = enableRotate g
  /\ enableTranslate g' = enableTranslate g /\ _mode g' = _mode g
  /\ center g' = center g /\ object g' = object g
  /\ _dragAxisName g' = _dragAxisName g
  /\ modelMatrixOf g' = modelMatrixOf g.
Proof.
  unfold updateOutlineSelection.
  destruct (_edgeDetectionStage g); [destruct (object g) as [o|] eqn:Ho;
    [destruct (isModelOrTileset o)|]|]; simpl; rewrite ?Ho;
    repeat split; reflexivity.
Qed.

Lemma createGizmo_frame (g : Gizmo) :
  let g' := createGizmo g in
  _isDragging g' = _isDragging g /\ enableRotate g' = enableRotate g
  /\ enableTranslate g' = enableTranslate g /\ _mode g' = _mode g
  /\ _handler g' = _handler g /\ object g' = object g.
Proof.
  unfold createGizmo; cbn -[Rplus Rmult Ropp IZR Rdiv PI].
  destruct (_mode g) eqn:Hm; cbn -[Rplus Rmult Ropp IZR Rdiv PI];
    rewrite ?Hm; repeat split; reflexivity.
Qed.

Lemma resetState_exits (g : Gizmo) :
  let g' := resetState g in
  _isDragging g' = false /\ enableRotate g' = true /\ enableTranslate g' = true.
Proof.
  unfold resetState, restoreHighlight; fields.
  destruct (_highlightedId g); fields;
    destruct (enableRotate g) eqn:Hr; fields; rewrite ?Hr;
    destruct (enableTranslate g) eqn:Ht; fields; rewrite ?Hr, ?Ht;
    repeat split; reflexivity.
Qed.

Lemma startDrag_started (i : GizmoId) (position : Cartesian2) (g : Gizmo) :
  Axis_eqb (axis i) CENTER && negb (Mode_eqb (_mode g) scale) = false ->
  let g' := startDrag C V i position g in
  _isDragging g' = true /\ enableRotate g' = false
  /\ enableTranslate g' = false /\ _dragAxisName g' = name i.
Proof.
  intros Hguard; unfold startDrag; rewrite Hguard.
  set (g1 := set_dragAxisName (name i)
               (set_isDragging true
                  (set_enableTranslate false (set_enableRotate false g)))).
  destruct (updateOutlineSelection_frame g1)
    as (Hd & Hr & Ht & Hm & Hc & Ho & Hn & _).
  set (g2 := updateOutlineSelection g1) in *.
  destruct (center g2) as [c|]; [|cbn in *; auto].
  destruct (object _) as [o|]; [destruct (isModelOrTileset o)|];
    cbn [center set_dragStartCenter set_initialModelMatrix _mode set_dragPlane];
    destruct (getPickRay V position) as [ray|];
    try destruct (rayPlane C ray _); cbn in *; auto.
Qed.

(** [startDrag] leaves the binding, the mode, the geometry and the model
    matrices as they are. *)
Lemma updateOutlineSelection_keeps (g : Gizmo) :
  let g' := updateOutlineSelection g in
  axisLength g' = axisLength g /\ _activeScale g' = _activeScale g
  /\ _axisPrimitives g' = _axisPrimitives g /\ _colliders g' = _colliders g
  /\ emitted g' = emitted g /\ _dragStartPoint g' = _dragStartPoint g.
Proof.
  unfold updateOutlineSelection.
  destruct (_edgeDetectionStage g); [destruct (object g) as [o|] eqn:Ho;
    [destruct (isModelOrTileset o)|]|]; simpl; rewrite ?Ho;
    repeat split; reflexivity.
Qed.

Lemma startDrag_frame (i : GizmoId) (position : Cartesian2) (g : Gizmo) :
  let g' := startDrag C V i position g in
  center g' = center g /\ object g' = object g /\ _mode g' = _mode g
  /\ axisLength g' = axisLength g /\ _activeScale g' = _activeScale g
  /\ modelMatrixOf g' = modelMatrixOf g /\ emitted g' = emitted g
  /\ _colliders g' = _colliders g /\ _axisPrimitives g' = _axisPrimitives g.
Proof.
  unfold startDrag.
  destruct (Axis_eqb (axis i) CENTER && negb (Mode_eqb (_mode g) scale));
    [repeat split; reflexivity|].
  set (g1 := set_dragAxisName (name i)
               (set_isDragging true
                  (set_enableTranslate false (set_enableRotate false g)))).
  destruct (updateOutlineSelection_frame g1)
    as (_ & _ & _ & Hm & Hc & Ho & _ & Hmm).
  destruct (updateOutlineSelection_keeps g1) as (Hl & Hs & Hp & Hk & He & _).
  change (center g1) with (center g) in Hc.
  change (object g1) with (object g) in Ho.
  change (_mode g1) with (_mode g) in Hm.
  change (modelMatrixOf g1) with (modelMatrixOf g) in Hmm.
  change (axisLength g1) with (axisLength g) in Hl.
  change (_activeScale g1) with (_activeScale g) in Hs.
  change (_axisPrimitives g1) with (_axisPrimitives g) in Hp.
  change (_colliders g1) with (_colliders g) in Hk.
  change (emitted g1) with (emitted g) in He.
  generalize dependent (updateOutlineSelection g1); clear g1; intros g2.
  intros Hm Hc Ho Hmm Hl Hs Hp Hk He.
  destruct (center g2) as [c|] eqn:Hc2; [|rewrite Hc2; repeat split; auto].
  fields.
  destruct (object g2) as [o|] eqn:Ho2; [destruct (isModelOrTileset o)|];
    fields;
    destruct (getPickRay V position) as [ray|];
    try destruct (rayPlane C ray _); fields; rewrite ?Hc2, ?Ho2;
    repeat split; auto.
Qed.


Lemma Axis_eqb_eq (a b : Axis) : Axis_eqb a b = true <-> a = b.
Proof. destruct a, b; simpl; split; intro H; try reflexivity; discriminate. Qed.

Lemma Mode_eqb_eq (a b : TransformMode) : Mode_eqb a b = true <-> a = b.
Proof. destruct a, b; simpl; split; intro H; try reflexivity; discriminate. Qed.

(** The guard of [startDrag] rejects exactly the CENTER handle outside
    of scale mode. *)
Lemma startDrag_guard (i : GizmoId) (g : Gizmo) :
  Axis_eqb (axis i) CENTER && negb (Mode_eqb (_mode g) scale) = false
  <-> (axis i <> CENTER \/ _mode g = scale).
Proof.
  rewrite andb_false_iff, negb_false_iff, Mode_eqb_eq.
  split; intros [H|H]; auto; left.
  - intro E; apply Axis_eqb_eq in E; congruence.
  - destruct (Axis_eqb (axis i) CENTER) eqn:E; [|reflexivity].
    apply Axis_eqb_eq in E; contradiction.
Qed.

Lemma fireUpdate_frame (g : Gizmo) :
  let g' := fireUpdate C g in
  _isDragging g' = _isDragging g /\ enableRotate g' = enableRotate g
  /\ enableTranslate g' = enableTranslate g
  /\ modelMatrixOf g' = modelMatrixOf g.
Proof.
  unfold fireUpdate; destruct (onUpdate g); fields; repeat split; reflexivity.
Qed.

Lemma parseCenter_frame (g : Gizmo) :
  let g' := parseCenter V g in
  _isDragging g' = _isDragging g /\ enableRotate g' = enableRotate g
  /\ enableTranslate g' = enableTranslate g.
Proof.
  unfold parseCenter; destruct (object g) as [o|];
    [destruct (isModelOrTileset o)|]; fields; repeat split; reflexivity.
Qed.

(** Rebinding to another object leaves the drag and frees the camera. *)
Lemma set_object_frame (v : option BoundObject) (g : Gizmo) :
  _isDragging (set_object v g) = _isDragging g
  /\ enableRotate (set_object v g) = enableRotate g
  /\ enableTranslate (set_object v g) = enableTranslate g.
Proof. repeat split; reflexivity. Qed.

Lemma bindObject_exits (g : Gizmo) (o : BoundObject) :
  object g <> Some o ->
  let g' := bindObject C V (Some o) g in
  _isDragging g' = false /\ enableRotate g' = true /\ enableTranslate g' = true.
Proof.
  intros Hne.
  assert (Hfresh : bindObject C V (Some o) g
                   = fireUpdate C
                       (updateOutlineSelection
                          (createGizmo
                             (parseCenter V
                                (set_object (Some o) (resetState g)))))).
  { unfold bindObject.
    destruct (object g) as [o'|] eqn:Ho; [|reflexivity].
    destruct (same_object o' o) eqn:Hs; [|reflexivity].
    apply same_object_eq in Hs; subst; contradiction. }
  cbv zeta; rewrite Hfresh.
  pose proof (resetState_exits g) as Hreset; cbv zeta in Hreset.
  generalize dependent (resetState g); intros r _ (Hd & Hr & Ht).
  destruct (fireUpdate_frame
              (updateOutlineSelection
                 (createGizmo (parseCenter V (set_object (Some o) r)))))
    as (-> & -> & -> & _).
  destruct (updateOutlineSelection_frame
              (createGizmo (parseCenter V (set_object (Some o) r))))
    as (-> & -> & -> & _).
  destruct (createGizmo_frame (parseCenter V (set_object (Some o) r)))
    as (-> & -> & -> & _).
  destruct (parseCenter_frame (set_object (Some o) r)) as (-> & -> & ->).
  destruct (set_object_frame (Some o) r) as (-> & -> & ->).
  auto.
Qed.

Lemma detach_exits (g : Gizmo) :
  let g' := detach g in
  _isDragging g' = false /\ enableRotate g' = true /\ enableTranslate g' = true.
Proof.
  unfold detach; cbv zeta.
  pose proof (resetState_exits g) as Hreset; cbv zeta in Hreset.
  generalize dependent (resetState g); intros r (Hd & Hr & Ht).
  destruct (_edgeDetectionStage _); fields; auto.
Qed.

(** *** Exits from a drag (C2) *)

(** C2.  The specification asks that every exit from a drag other than
    pointer-up (rebinding to another object, detach, a change of the
    mode property, destroy) leave the Dragging state and re-enable the
    camera's rotate and translate controls.  Rebinding and [detach] do,
    through [resetState].  The setter of [mode] and [destroy] do not call
    [resetState]: started in a drag with the controls disabled, they end
    in a drag with the controls disabled, and after [destroy] the
    pointer-up action is no longer delivered, so nothing re-enables
    them. *)
Theorem drag_exit_paths (g : Gizmo) :
  _isDragging g = true -> enableRotate g = false -> enableTranslate g = false ->
  (forall o, object g <> Some o ->
     let g' := bindObject C V (Some o) g in
     _isDragging g' = false /\ enableRotate g' = true
     /\ enableTranslate g' = true)
  /\ (let g' := detach g in
      _isDragging g' = false /\ enableRotate g' = true
      /\ enableTranslate g' = true)
  /\ (forall val,
       let g' := set_mode_property val g in
       _isDragging g' = true /\ enableRotate g' = false
       /\ enableTranslate g' = false)
  /\ (let g' := destroy g in
      _isDragging g' = true /\ enableRotate g' = false
      /\ enableTranslate g' = false /\ onLeftUp g' = g').
Proof.
  intros Hd Hr Ht; split; [|split; [|split]].
  - intros o Hne; apply bindObject_exits; assumption.
  - apply detach_exits.
  - intros val; unfold set_mode_property.
    destruct (negb (Mode_eqb (_mode g) val)); [|tauto].
    destruct (createGizmo_frame (set_mode val g)) as (-> & -> & -> & _).
    fields; tauto.
  - unfold destroy, onLeftUp; cbv zeta; fields.
    destruct (_outlineStage g); fields;
      destruct (_handler g) eqn:Hh; fields; rewrite ?Hh; auto.
Qed.

(** *** Pointer-down (C8) *)

(** C8.  From a state that is not dragging, the pointer-down handler
    enters the drag exactly when a handle is resolved (by the ray cast or
    by the host pick) and the handle is not CENTER or the mode is scale.
    A resolved CENTER handle in translate or rotate mode, and an
    unresolved pick, leave the whole state as it was; an accepted handle
    disables both camera controls and records the handle's name. *)
Theorem handleDown_starts_drag (g : Gizmo) (position : Cartesian2) :
  _isDragging g = false ->
  (_isDragging (handleDown C V position g) = true <->
     exists i, pickedOnDown C V g position = Some i
               /\ (axis i <> CENTER \/ _mode g = scale))
  /\ (forall i, pickedOnDown C V g position = Some i ->
                axis i = CENTER -> _mode g <> scale ->
                handleDown C V position g = g)
  /\ (pickedOnDown C V g position = None -> handleDown C V position g = g)
  /\ (forall i, pickedOnDown C V g position = Some i ->
                axis i <> CENTER \/ _mode g = scale ->
                let g' := handleDown C V position g in
                enableRotate g' = false /\ enableTranslate g' = false
                /\ _dragAxisName g' = name i).
Proof.
  intros Hidle; unfold handleDown.
  destruct (pickedOnDown C V g position) as [i|] eqn:Hpick.
  - destruct (Axis_eqb (axis i) CENTER && negb (Mode_eqb (_mode g) scale))
      eqn:Hguard.
    + assert (Hrej : startDrag C V i position g = g)
        by (unfold startDrag; rewrite Hguard; reflexivity).
      assert (Hno : ~ (axis i <> CENTER \/ _mode g = scale)).
      { intro H; apply startDrag_guard in H; congruence. }
      rewrite Hrej; split; [|split; [|split]].
      * rewrite Hidle; split; [discriminate|].
        intros (j & Hj & Hok); injection Hj as <-; contradiction.
      * intros j Hj _ _; reflexivity.
      * discriminate.
      * intros j Hj Hok; injection Hj as <-; contradiction.
    + destruct (startDrag_started i position g Hguard) as (Hd & Hr & Ht & Hn).
      split; [|split; [|split]].
      * split; [|intros _; exact Hd].
        intros _; exists i; split; [reflexivity|].
        apply startDrag_guard; assumption.
      * intros j Hj Hc Hm; injection Hj as <-.
        apply startDrag_guard in Hguard; tauto.
      * discriminate.
      * intros j Hj _; injection Hj as <-; cbv zeta; auto.
  - split; [|split; [|split]].
    + rewrite Hidle; split; [discriminate|intros (j & Hj & _); discriminate].
    + discriminate.
    + reflexivity.
    + discriminate.
Qed.

(** *** A move tick that cannot reach the drag plane (C9) *)

(** C9.  While dragging, a pointer-move for which the camera yields no
    pick ray, or whose ray does not meet the stored drag plane, is
    skipped: the state is the one before the tick, so the model matrix of
    every object is unchanged and nothing was passed to [onUpdate]. *)
Theorem handleDrag_skips_tick (g : Gizmo) (position : Cartesian2) :
  (getPickRay V position = None
   \/ exists ray plane,
        _dragPlane g = Some plane /\ getPickRay V position = Some ray
        /\ rayPlane C ray plane = None) ->
  let g' := handleDrag C V position g in
  g' = g /\ modelMatrixOf g' = modelMatrixOf g /\ emitted g' = emitted g
  /\ (_isDragging g = true -> onMouseMove C V position g = g).
Proof.
  intros H.
  assert (Hskip : handleDrag C V position g = g).
  { unfold handleDrag.
    destruct (_dragPlane g) as [p|]; [|reflexivity].
    destruct (center g); [|reflexivity].
    destruct H as [-> | (ray & plane & Hp & -> & Hnone)]; [reflexivity|].
    injection Hp as ->; rewrite Hnone; reflexivity. }
  cbv zeta; rewrite Hskip; repeat split.
  intros Hd; unfold onMouseMove.
  destruct (_handler g); [|reflexivity].
  destruct (object g); [|reflexivity].
  rewrite Hd; exact Hskip.
Qed.

(** *** Binding the bound object again (C10) *)

(** C10.  [bindObject] called with the object that is already bound
    returns the state it was given: no field is reset, the primitives and
    colliders are not rebuilt, the outline selection is not touched and
    nothing is passed to [onUpdate].  Hence a call that does change the
    state was made with another object. *)
Theorem bindObject_same_object (g : Gizmo) (o : BoundObject) :
  object g = Some o ->
  let g' := bindObject C V (Some o) g in
  g' = g
  /\ _isDragging g' = _isDragging g
  /\ _colliders g' = _colliders g
  /\ _axisPrimitives g' = _axisPrimitives g
  /\ _edgeDetectionStage g' = _edgeDetectionStage g
  /\ emitted g' = emitted g
  /\ (forall o', bindObject C V (Some o') g <> g -> o' <> o).
Proof.
  intros Ho.
  assert (Hsame : bindObject C V (Some o) g = g).
  { unfold bindObject; rewrite Ho, same_object_refl; reflexivity. }
  cbv zeta; rewrite Hsame; repeat split.
  intros o' Hchg ->; contradiction.
Qed.

(** *** The choice among the colliders that are hit (C1) *)

(** The loop returns the accumulator when no hit is closer than
    [minDistance], and otherwise the first hit of least [pickDistance]. *)
Lemma castLoop_least (g : Gizmo) (ray : Ray) (cs : list GizmoCollider) :
  forall (m : R) (acc : option GizmoId),
    let r := castLoop C g ray cs m acc in
    (r = acc
     /\ forall c t, In c cs -> colliderHit C g ray c = Some t ->
                    m <= pickDistance c t)
    \/ (exists c t,
          In c cs /\ colliderHit C g ray c = Some t /\ r = Some (id c)
          /\ pickDistance c t < m
          /\ forall c' t', In c' cs -> colliderHit C g ray c' = Some t' ->
                           pickDistance c t <= pickDistance c' t').
Proof.
  induction cs as [|c rest IH]; intros m acc; cbn [castLoop].
  - left; split; [reflexivity|intros c t []].
  - destruct (colliderHit C g ray c) as [t|] eqn:Hc.
    + destruct (Rlt_dec (pickDistance c t) m) as [Hlt|Hge].
      * destruct (IH (pickDistance c t) (Some (id c)))
          as [[Hr Hall] | (c2 & t2 & Hin & Hh & Hr & Hlt2 & Hmin)].
        -- right; exists c, t; repeat split; auto; [left; reflexivity|].
           intros c' t' [<-|Hin] Hh'.
           ++ rewrite Hc in Hh'; injection Hh' as <-; lra.
           ++ eapply Hall; eauto.
        -- right; exists c2, t2; repeat split; auto; [right; exact Hin|lra|].
           intros c' t' [<-|Hin'] Hh'.
           ++ rewrite Hc in Hh'; injection Hh' as <-; lra.
           ++ eapply Hmin; eauto.
      * destruct (IH m acc)
          as [[Hr Hall] | (c2 & t2 & Hin & Hh & Hr & Hlt2 & Hmin)].
        -- left; split; [exact Hr|].
           intros c' t' [<-|Hin] Hh'.
           ++ rewrite Hc in Hh'; injection Hh' as <-; lra.
           ++ eapply Hall; eauto.
        -- right; exists c2, t2; repeat split; auto; [right; exact Hin|].
           intros c' t' [<-|Hin'] Hh'.
           ++ rewrite Hc in Hh'; injection Hh' as <-; lra.
           ++ eapply Hmin; eauto.
    + destruct (IH m acc)
        as [[Hr Hall] | (c2 & t2 & Hin & Hh & Hr & Hlt2 & Hmin)].
      * left; split; [exact Hr|].
        intros c' t' [<-|Hin] Hh'; [congruence|eapply Hall; eauto].
      * right; exists c2, t2; repeat split; auto; [right; exact Hin|].
        intros c' t' [<-|Hin'] Hh'; [congruence|eapply Hmin; eauto].
Qed.

Lemma rayCastGizmo_loop (g : Gizmo) (position : Cartesian2) (ray : Ray) :
  getPickRay V position = Some ray ->
  rayCastGizmo C V g position
  = castLoop C g ray (_colliders g) JsMath.MAX_VALUE None.
Proof.
  intros Hray; unfold rayCastGizmo; rewrite Hray.
  destruct (_colliders g); reflexivity.
Qed.

(** The loop returns the accumulator when no hit is closer than
    [minDistance]; otherwise it returns the hit of least [pickDistance],
    the first one in the order of the list when several are as close. *)
Lemma castLoop_first_least (g : Gizmo) (ray : Ray) (cs : list GizmoCollider) :
  forall (m : R) (acc : option GizmoId),
    let r := castLoop C g ray cs m acc in
    (r = acc
     /\ forall c t, In c cs -> colliderHit C g ray c = Some t ->
                    m <= pickDistance c t)
    \/ (exists l1 c l2 t,
          cs = (l1 ++ c :: l2)%list /\ colliderHit C g ray c = Some t
          /\ r = Some (id c) /\ pickDistance c t < m
          /\ (forall c' t', In c' l1 -> colliderHit C g ray c' = Some t' ->
                            pickDistance c t < pickDistance c' t')
          /\ (forall c' t', In c' l2 -> colliderHit C g ray c' = Some t' ->
                            pickDistance c t <= pickDistance c' t')).
Proof.
  induction cs as [|c0 rest IH]; intros m acc; cbn [castLoop].
  - left; split; [reflexivity|intros c t []].
  - destruct (colliderHit C g ray c0) as [t0|] eqn:Hc.
    + destruct (Rlt_dec (pickDistance c0 t0) m) as [Hlt|Hge].
      * destruct (IH (pickDistance c0 t0) (Some (id c0)))
          as [[Hr Hall] | (l1 & c & l2 & t & -> & Hh & Hr & Hlt2 & H1 & H2)].
        -- right; exists [], c0, rest, t0; repeat split; auto.
           intros c' t' [].
        -- right; exists (c0 :: l1), c, l2, t; repeat split; auto; [lra|].
           intros c' t' [<-|Hin] Hh'.
           ++ rewrite Hc in Hh'; injection Hh' as <-; exact Hlt2.
           ++ eapply H1; eauto.
      * destruct (IH m acc)
          as [[Hr Hall] | (l1 & c & l2 & t & -> & Hh & Hr & Hlt2 & H1 & H2)].
        -- left; split; [exact Hr|].
           intros c' t' [<-|Hin] Hh'.
           ++ rewrite Hc in Hh'; injection Hh' as <-; lra.
           ++ eapply Hall; eauto.
        -- right; exists (c0 :: l1), c, l2, t; repeat split; auto.
           intros c' t' [<-|Hin] Hh'.
           ++ rewrite Hc in Hh'; injection Hh' as <-; lra.
           ++ eapply H1; eauto.
    + destruct (IH m acc)
        as [[Hr Hall] | (l1 & c & l2 & t & -> & Hh & Hr & Hlt2 & H1 & H2)].
      * left; split; [exact Hr|].
        intros c' t' [<-|Hin] Hh'; [congruence|eapply Hall; eauto].
      * right; exists (c0 :: l1), c, l2, t; repeat split; auto.
        intros c' t' [<-|Hin] Hh'; [congruence|eapply H1; eauto].
Qed.

(** C1 (amended).  [rayCastGizmo] compares, for every collider hit by the
    ray, the entry distance [t], lowered by 1000 for the CENTER handle
    ([pickDistance]).  It returns nothing exactly when no hit has a
    compared distance below [Number.MAX_VALUE]; otherwise it returns the
    handle of the hit of least compared distance, the first one in the
    order of the registry when several are as close.  So the CENTER
    handle, when it is hit, is the one returned unless some other
    collider is entered at least 1000 units before it; and a handle other
    than CENTER is all that can be returned when CENTER is not hit. *)
Theorem rayCast_center_priority (g : Gizmo) (position : Cartesian2) (ray : Ray) :
  getPickRay V position = Some ray ->
  (forall i, rayCastGizmo C V g position = Some i ->
     exists c t,
       In c (_colliders g) /\ colliderHit C g ray c = Some t /\ i = id c
       /\ forall c' t', In c' (_colliders g) ->
                        colliderHit C g ray c' = Some t' ->
                        pickDistance c t <= pickDistance c' t')
  /\ (forall c t,
        In c (_colliders g) -> axis (id c) = CENTER ->
        colliderHit C g ray c = Some t -> t - 1000 < JsMath.MAX_VALUE ->
        (forall c' t', In c' (_colliders g) -> axis (id c') <> CENTER ->
                       colliderHit C g ray c' = Some t' -> t - 1000 < t') ->
        exists i, rayCastGizmo C V g position = Some i /\ axis i = CENTER)
  /\ ((forall c t, In c (_colliders g) -> colliderHit C g ray c = Some t ->
                   axis (id c) <> CENTER) ->
      forall i, rayCastGizmo C V g position = Some i -> axis i <> CENTER)
  /\ (rayCastGizmo C V g position = None <->
      forall c t, In c (_colliders g) -> colliderHit C g ray c = Some t ->
                  JsMath.MAX_VALUE <= pickDistance c t)
  /\ (forall c t, In c (_colliders g) -> colliderHit C g ray c = Some t ->
                  pickDistance c t < JsMath.MAX_VALUE ->
                  exists i, rayCastGizmo C V g position = Some i)
  /\ (forall i, rayCastGizmo C V g position = Some i ->
        exists l1 c l2 t,
          _colliders g = (l1 ++ c :: l2)%list /\ colliderHit C g ray c = Some t
          /\ i = id c /\ pickDistance c t < JsMath.MAX_VALUE
          /\ (forall c' t', In c' l1 -> colliderHit C g ray c' = Some t' ->
                            pickDistance c t < pickDistance c' t')
          /\ (forall c' t', In c' l2 -> colliderHit C g ray c' = Some t' ->
                            pickDistance c t <= pickDistance c' t')).
Proof.
  intros Hray; rewrite (rayCastGizmo_loop g position ray Hray).
  pose proof (castLoop_least g ray (_colliders g) JsMath.MAX_VALUE None) as Hl.
  pose proof (castLoop_first_least g ray (_colliders g) JsMath.MAX_VALUE None)
    as Hf.
  cbv zeta in Hl, Hf.
  assert (Hfound : forall i,
    castLoop C g ray (_colliders g) JsMath.MAX_VALUE None = Some i ->
    exists c t,
      In c (_colliders g) /\ colliderHit C g ray c = Some t /\ i = id c
      /\ forall c' t', In c' (_colliders g) ->
                       colliderHit C g ray c' = Some t' ->
                       pickDistance c t <= pickDistance c' t').
  { intros i Hi.
    destruct Hl as [[Hr _] | (c & t & Hin & Hh & Hr & _ & Hmin)];
      [congruence|].
    exists c, t; repeat split; auto; congruence. }
  assert (Hnone : castLoop C g ray (_colliders g) JsMath.MAX_VALUE None = None
                  <-> forall c t, In c (_colliders g) ->
                                  colliderHit C g ray c = Some t ->
                                  JsMath.MAX_VALUE <= pickDistance c t).
  { split.
    - intros Hn.
      destruct Hl as [[_ Hall] | (c & t & _ & _ & Hr & _)];
        [exact Hall|congruence].
    - intros Hall.
      destruct Hl as [[Hr _] | (c & t & Hin & Hh & _ & Hlt & _)];
        [exact Hr|].
      specialize (Hall c t Hin Hh); lra. }
  split; [exact Hfound|].
  split.
  { intros c t Hin Hax Hh Hbound Hothers.
    assert (Hpd : pickDistance c t = t - 1000).
    { unfold pickDistance; rewrite Hax; simpl; lra. }
    destruct Hl as [[_ Hall] | (c2 & t2 & Hin2 & Hh2 & Hr & _ & Hmin)].
    + specialize (Hall c t Hin Hh); lra.
    + exists (id c2); split; [exact Hr|].
      destruct (Axis_eqb (axis (id c2)) CENTER) eqn:E;
        [apply Axis_eqb_eq; exact E|].
      exfalso.
      assert (Hne : axis (id c2) <> CENTER)
        by (intro E'; apply Axis_eqb_eq in E'; congruence).
      specialize (Hothers c2 t2 Hin2 Hne Hh2).
      specialize (Hmin c t Hin Hh).
      unfold pickDistance at 1 in Hmin; rewrite E in Hmin; lra. }
  split.
  { intros Hno i Hi.
    destruct (Hfound i Hi) as (c & t & Hin & Hh & -> & _).
    eapply Hno; eauto. }
  split; [exact Hnone|].
  split.
  { intros c t Hin Hh Hlt.
    destruct (castLoop C g ray (_colliders g) JsMath.MAX_VALUE None)
      as [i|] eqn:Hr; [exists i; reflexivity|].
    pose proof (proj1 Hnone eq_refl c t Hin Hh); lra. }
  intros i Hi.
  destruct Hf as [[Hr _] | (l1 & c & l2 & t & Hsplit & Hh & Hr & Hlt & H1 & H2)];
    [congruence|].
  exists l1, c, l2, t; repeat split; auto; congruence.
Qed.

(** *** The reported state (C3) *)

Lemma cleanScale_policy (val : R) :
  (Rabs (val - 1) < 0.00001 -> cleanScale val = 1)
  /\ (0.00001 <= Rabs (val - 1) -> cleanScale val = JsMath.toFixed 3 val)
  /\ Spec.roundedTo 3 val (cleanScale val).
Proof.
  unfold cleanScale, JsMath.abs.
  destruct (Rlt_dec (Rabs (val - 1)) 0.00001) as [Hnear|Hfar].
  - repeat split; try lra.
    + exists 1000%Z; simpl; lra.
    + rewrite Rabs_minus_sym; simpl; lra.
  - repeat split; try lra; apply toFixed_rounded.
Qed.

(** The local [toDegrees] rounds the wrapped angle and stays in
    [0, 360). *)
Lemma toDegrees_range (rad : R) :
  (exists raw, toDegrees rad = JsMath.toFixed 2 raw)
  /\ 0 <= toDegrees rad < 360.
Proof.
  unfold toDegrees; cbv zeta.
  set (rad' := if Rlt_dec (JsMath.abs rad) 1e-10 then 0 else rad).
  set (d1 := JsMath.rem (JsMath.toDegrees rad') 360).
  set (d2 := if Rlt_dec d1 0 then d1 + 360 else d1).
  set (d3 := if Rlt_dec (JsMath.abs (d2 - 360)) 0.01 then 0 else d2).
  set (d4 := if Rlt_dec (JsMath.abs d3) 0.01 then 0 else d3).
  split; [exists d4; reflexivity|].
  assert (H1 : -360 < d1 < 360).
  { subst d1; destruct (rem_360 (JsMath.toDegrees rad')) as [Hp Hn].
    destruct (Rle_dec 0 (JsMath.toDegrees rad')) as [H|H];
      [specialize (Hp H)|specialize (Hn (Rnot_le_lt _ _ H))]; lra. }
  assert (H2 : 0 <= d2 < 360) by (subst d2; destruct (Rlt_dec d1 0); lra).
  assert (H3 : 0 <= d3 <= 359.99).
  { subst d3; unfold JsMath.abs.
    destruct (Rlt_dec (Rabs (d2 - 360)) 0.01) as [H|H]; [lra|].
    rewrite Rabs_left in H by lra; lra. }
  assert (H4 : 0 <= d4 <= 359.99)
    by (subst d4; destruct (Rlt_dec (JsMath.abs d3) 0.01); lra).
  destruct (toFixed_between 2 0 35999 d4) as [Hlo Hhi];
    [lia|simpl; lra|simpl in Hlo, Hhi; lra].
Qed.

(** The remainder by 360, moved up by 360 when negative, is the floor
    wrap. *)
Lemma rem_360_wrap (x : R) :
  (if Rlt_dec (JsMath.rem x 360) 0
   then JsMath.rem x 360 + 360 else JsMath.rem x 360)
  = x - 360 * IZR (Zfloor (x / 360)).
Proof.
  unfold JsMath.rem, JsMath.trunc.
  destruct (Rle_dec 0 (x / 360)) as [Hp|Hn].
  - pose proof (Zfloor_bound (x / 360)) as Hb.
    destruct (Rlt_dec (x - 360 * IZR (Zfloor (x / 360))) 0); [lra|reflexivity].
  - pose proof (Zfloor_bound (- (x / 360))) as Hb.
    set (k := Zfloor (- (x / 360))) in *.
    destruct (Rlt_dec (x - 360 * - IZR k) 0) as [Hlt|Hge].
    + assert (E : Zfloor (x / 360) = (- k - 1)%Z).
      { apply Zfloor_eq; rewrite minus_IZR, opp_IZR; lra. }
      rewrite E, minus_IZR, opp_IZR; ring.
    + assert (E : Zfloor (x / 360) = (- k)%Z).
      { apply Zfloor_eq; rewrite opp_IZR; lra. }
      rewrite E, opp_IZR; reflexivity.
Qed.

Lemma toFixed_zero (d : nat) : JsMath.toFixed d 0 = 0.
Proof.
  unfold JsMath.toFixed.
  destruct (Rle_dec 0 0) as [_|H]; [|lra].
  replace (0 * 10 ^ d + / 2) with (/ 2) by ring.
  rewrite (Zfloor_eq 0 (/ 2)) by (simpl; lra).
  unfold Rdiv; simpl; ring.
Qed.

Lemma wrapDegrees_range (rad : R) : 0 <= Spec.wrapDegrees rad < 360.
Proof.
  unfold Spec.wrapDegrees; cbv zeta.
  pose proof (Zfloor_bound (rad * (180 / PI) / 360)); lra.
Qed.

(** What the local [toDegrees] returns, in terms of the floor-wrapped
    angle [w]: 0 when [w] is within 0.01 of 0 or of 360, and [w] rounded
    to 2 decimal digits otherwise. *)
Lemma toDegrees_policy (rad : R) :
  let w := Spec.wrapDegrees rad in
  (w < 0.01 \/ 359.99 < w -> toDegrees rad = 0)
  /\ (0.01 <= w <= 359.99 -> toDegrees rad = JsMath.toFixed 2 w).
Proof.
  pose proof (wrapDegrees_range rad) as Hw.
  unfold toDegrees; cbv zeta.
  destruct (Rlt_dec (JsMath.abs rad) 1e-10) as [Hsmall|Hbig].
  - (* the radian value is taken as 0 *)
    assert (Hk : 0 < 180 / PI < 60).
    { pose proof PI2_3_2 as Hpi; split.
      - apply Rdiv_lt_0_compat; lra.
      - apply Rmult_lt_reg_r with PI; [lra|].
        unfold Rdiv; rewrite Rmult_assoc, Rinv_l by lra; lra. }
    assert (Hz : JsMath.toDegrees 0 = 0) by (unfold JsMath.toDegrees; ring).
    assert (Hr : JsMath.rem 0 360 = 0).
    { unfold JsMath.rem, JsMath.trunc.
      replace (0 / 360) with 0 by (unfold Rdiv; ring).
      destruct (Rle_dec 0 0) as [_|H]; [|lra].
      rewrite (Zfloor_eq 0 0) by (simpl; lra); simpl; ring. }
    rewrite Hz, Hr.
    destruct (Rlt_dec 0 0) as [H|_]; [lra|].
    unfold JsMath.abs in *.
    destruct (Rlt_dec (Rabs (0 - 360)) 0.01) as [_|_];
      (destruct (Rlt_dec (Rabs 0) 0.01) as [_|H];
       [|rewrite Rabs_R0 in H; lra]).
    + rewrite toFixed_zero; split; [reflexivity|].
      intros Hmid; exfalso.
      revert Hmid; unfold Spec.wrapDegrees; cbv zeta.
      set (deg := rad * (180 / PI)).
      assert (Hdeg : -0.001 < deg < 0.001).
      { apply Rabs_def2 in Hsmall; subst deg; split; nra. }
      destruct (Rle_dec 0 deg) as [Hp|Hn].
      * rewrite (Zfloor_eq 0 (deg / 360)) by (simpl; lra); simpl; lra.
      * rewrite (Zfloor_eq (-1) (deg / 360)) by (simpl; lra); simpl; lra.
    + rewrite toFixed_zero; split; [reflexivity|].
      intros Hmid; exfalso.
      revert Hmid; unfold Spec.wrapDegrees; cbv zeta.
      set (deg := rad * (180 / PI)).
      assert (Hdeg : -0.001 < deg < 0.001).
      { apply Rabs_def2 in Hsmall; subst deg; split; nra. }
      destruct (Rle_dec 0 deg) as [Hp|Hn].
      * rewrite (Zfloor_eq 0 (deg / 360)) by (simpl; lra); simpl; lra.
      * rewrite (Zfloor_eq (-1) (deg / 360)) by (simpl; lra); simpl; lra.
  - rewrite rem_360_wrap.
    change (JsMath.toDegrees rad - 360 * IZR (Zfloor (JsMath.toDegrees rad / 360)))
      with (Spec.wrapDegrees rad).
    set (w := Spec.wrapDegrees rad) in *.
    unfold JsMath.abs.
    destruct (Rlt_dec (Rabs (w - 360)) 0.01) as [H360|H360].
    + rewrite Rabs_left in H360 by lra.
      destruct (Rlt_dec (Rabs 0) 0.01) as [_|H]; [|rewrite Rabs_R0 in H; lra].
      rewrite toFixed_zero; split; [reflexivity|lra].
    + rewrite Rabs_left in H360 by lra.
      destruct (Rlt_dec (Rabs w) 0.01) as [H0|H0];
        rewrite Rabs_pos_eq in H0 by lra.
      * rewrite toFixed_zero; split; [reflexivity|lra].
      * split; [lra|reflexivity].
Qed.

(** C3 (amended).  In the state returned by [getTransformState], the
    position components are the translation of the model matrix rounded
    to 2 decimal digits (not 3); each scale component is the column
    magnitude, replaced by exactly 1 when it is within 1e-5 of 1 and
    otherwise rounded to 3 decimal digits.  The angles are computed from
    the heading, pitch and roll, in radians, of the rotation of the
    object (the 3x3 block with its columns normalized) relative to the
    rotation of the local frame at the object's position: each is
    converted to degrees and floor-wrapped into [0, 360), then replaced by
    0 when it is within 0.01 of 0 or of 360, and otherwise rounded to 2
    decimal digits.  Every reported angle lies in [0, 360). *)
Theorem getTransformState_rounding (g : Gizmo) (st : TransformState) :
  getTransformState C g = Some st ->
  exists o,
    object g = Some o
    /\ (let p := Matrix4.getTranslation (modelMatrixOf g (ref o)) in
        px (position st) = JsMath.toFixed 2 (cx p)
        /\ py (position st) = JsMath.toFixed 2 (cy p)
        /\ pz (position st) = JsMath.toFixed 2 (cz p)
        /\ Spec.roundedTo 2 (cx p) (px (position st))
        /\ Spec.roundedTo 2 (cy p) (py (position st))
        /\ Spec.roundedTo 2 (cz p) (pz (position st)))
    /\ (let s := Matrix4.getScale (modelMatrixOf g (ref o)) in
        forall raw out,
          (raw, out) = (cx s, px (scale_ st))
          \/ (raw, out) = (cy s, py (scale_ st))
          \/ (raw, out) = (cz s, pz (scale_ st)) ->
          (Rabs (raw - 1) < 0.00001 -> out = 1)
          /\ (0.00001 <= Rabs (raw - 1) -> out = JsMath.toFixed 3 raw)
          /\ Spec.roundedTo 3 raw out)
    /\ (forall a,
          a = heading (rotation st) \/ a = pitch (rotation st)
          \/ a = roll (rotation st) ->
          (exists raw, Spec.roundedTo 2 raw a) /\ 0 <= a < 360)
    /\ (let m := modelMatrixOf g (ref o) in
        let block := Matrix4.getMatrix3 m in
        let objectRotation :=
          mkM3 (Cartesian3.normalize (m3c0 block))
               (Cartesian3.normalize (m3c1 block))
               (Cartesian3.normalize (m3c2 block)) in
        let frameRotation :=
          Matrix4.getMatrix3
            (eastNorthUpToFixedFrame C (Matrix4.getTranslation m)) in
        let hpr :=
          hprFromRotationMatrix C
            (Matrix3.multiply (Matrix3_inverse C frameRotation)
                              objectRotation) in
        forall rad a,
          (rad, a) = (heading hpr, heading (rotation st))
          \/ (rad, a) = (pitch hpr, pitch (rotation st))
          \/ (rad, a) = (roll hpr, roll (rotation st)) ->
          let w := Spec.wrapDegrees rad in
          0 <= w < 360
          /\ (w < 0.01 \/ 359.99 < w -> a = 0)
          /\ (0.01 <= w <= 359.99 ->
              a = JsMath.toFixed 2 w /\ Spec.roundedTo 2 w a)).
Proof.
  unfold getTransformState.
  destruct (object g) as [o|]; [|discriminate].
  destruct (center g); [|discriminate].
  intros H; injection H as <-; exists o; cbn [position rotation scale_ px py pz
    heading pitch roll].
  split; [reflexivity|split; [|split; [|split]]].
  - repeat split; try reflexivity; apply toFixed_rounded.
  - intros raw out [E|[E|E]]; injection E as E1 E2; subst raw out;
      apply cleanScale_policy.
  - intros a [ -> | [ -> | -> ] ];
      match goal with |- context [toDegrees ?r] =>
        destruct (toDegrees_range r) as [[raw Hraw] Hrange]
      end;
      (split; [exists raw; rewrite Hraw; apply toFixed_rounded|exact Hrange]).
  - cbv zeta; intros rad a Hra.
    assert (Ha : a = toDegrees rad).
    { destruct Hra as [E|[E|E]]; injection E as E1 E2; subst rad a;
        reflexivity. }
    rewrite Ha; clear Hra Ha.
    destruct (toDegrees_policy rad) as [Hsnap Hround].
    split; [apply wrapDegrees_range|split; [exact Hsnap|]].
    intros Hmid; rewrite (Hround Hmid); split;
      [reflexivity|apply toFixed_rounded].
Qed.

(** *** Quadrant snapping (C4) *)

Lemma snapAngle_first_quadrant (angle : R) :
  0 <= angle < PI / 2 -> snapAngle angle = 0.
Proof.
  intros [H0 H1]; unfold snapAngle, JsMath.floor; cbv zeta.
  pose proof PI_RGT_0 as Hpi.
  assert (Hq : Zfloor (angle / (PI / 2)) = 0%Z).
  { apply Zfloor_eq; simpl; split.
    - apply Rmult_le_pos; [lra|left; apply Rinv_0_lt_compat; lra].
    - apply Rmult_lt_reg_r with (PI / 2); [lra|].
      unfold Rdiv at 1; rewrite Rmult_assoc, Rinv_l by lra; lra. }
  rewrite Hq; simpl; ring.
Qed.

Lemma snapAngle_right_angle : snapAngle (PI / 2) = PI / 2.
Proof.
  unfold snapAngle, JsMath.floor; cbv zeta.
  pose proof PI_RGT_0 as Hpi.
  replace (PI / 2 / (PI / 2)) with (IZR 1) by (simpl; field; lra).
  rewrite ZfloorZ; simpl; ring.
Qed.

Lemma atan2_first_quadrant (u v : R) :
  0 < u -> 0 <= v -> 0 <= JsMath.atan2 v u < PI / 2.
Proof.
  intros Hu Hv; unfold JsMath.atan2.
  destruct (Rlt_dec 0 u) as [_|Hn]; [|contradiction].
  split; [|apply atan_bound].
  rewrite <- atan_0.
  assert (Hq : 0 <= v / u)
    by (apply Rmult_le_pos; [exact Hv|left; apply Rinv_0_lt_compat; exact Hu]).
  destruct Hq as [Hq|<-]; [left; apply atan_increasing; exact Hq|right; reflexivity].
Qed.

Lemma atan2_straight_up (v : R) : 0 < v -> JsMath.atan2 v 0 = PI / 2.
Proof.
  intros Hv; unfold JsMath.atan2.
  destruct (Rlt_dec 0 0) as [H|_]; [lra|].
  destruct (Rlt_dec 0 v) as [_|H]; [reflexivity|contradiction].
Qed.

(** *** Placing primitives *)

Lemma dict_get_set {A} (d : Dict A) (k k' : string) (v : A) :
  dict_get (dict_set d k v) k'
  = if String.eqb k k' then Some v else dict_get d k'.
Proof.
  induction d as [|[k0 v0] rest IH]; cbn [dict_set dict_get].
  - destruct (String.eqb k k'); reflexivity.
  - destruct (String.eqb k0 k) eqn:E0; cbn [dict_get].
    + apply String.eqb_eq in E0; subst k0.
      destruct (String.eqb k k'); reflexivity.
    + destruct (String.eqb k0 k') eqn:E1; [|exact IH].
      apply String.eqb_eq in E1; subst k0.
      rewrite String.eqb_sym, E0; reflexivity.
Qed.

Lemma placePrimitive_get (k k' : string) (m : Matrix4) (g : Gizmo) :
  dict_get (_axisPrimitives (placePrimitive k m g)) k'
  = option_map (fun p => if String.eqb k k' then mkPrimitive (show p) m else p)
               (dict_get (_axisPrimitives g) k').
Proof.
  unfold placePrimitive.
  destruct (dict_get (_axisPrimitives g) k) as [p|] eqn:Hk; fields.
  - rewrite dict_get_set.
    destruct (String.eqb k k') eqn:E.
    + apply String.eqb_eq in E; subst k'; rewrite Hk; reflexivity.
    + destruct (dict_get (_axisPrimitives g) k'); reflexivity.
  - destruct (String.eqb k k') eqn:E.
    + apply String.eqb_eq in E; subst k'; rewrite Hk; reflexivity.
    + destruct (dict_get (_axisPrimitives g) k'); reflexivity.
Qed.

Lemma placePrimitive_frame (k : string) (m : Matrix4) (g : Gizmo) :
  let g' := placePrimitive k m g in
  _mode g' = _mode g /\ _activeScale g' = _activeScale g
  /\ center g' = center g /\ _colliders g' = _colliders g
  /\ _isDragging g' = _isDragging g /\ _dragAxisName g' = _dragAxisName g
  /\ axisLength g' = axisLength g.
Proof.
  unfold placePrimitive; destruct (dict_get _ k); fields;
    repeat split; reflexivity.
Qed.

(** *** The frame update in rotate mode *)

Lemma updateAxis_frame (b : R) (e : Matrix4) (d : Cartesian3)
      (g : Gizmo) (a : Axis) :
  let g' := updateAxis C b e d g a in
  _mode g' = _mode g /\ _activeScale g' = _activeScale g
  /\ center g' = center g /\ _colliders g' = _colliders g
  /\ _isDragging g' = _isDragging g /\ _dragAxisName g' = _dragAxisName g
  /\ axisLength g' = axisLength g.
Proof.
  unfold updateAxis; cbv zeta.
  destruct (_mode g) eqn:Hm;
    try destruct (dict_get (_axisPrimitives g) (axisName a ++ "_fan"));
    try destruct (dict_get (_axisPrimitives g) (axisName a ++ "_rim"));
    repeat match goal with
    | |- context [placePrimitive ?k ?m ?x] =>
        destruct (placePrimitive_frame k m x)
          as (-> & -> & -> & -> & -> & -> & ->)
    end; rewrite ?Hm; repeat split; reflexivity.
Qed.

Lemma updateAxis_rotate_get (b : R) (e : Matrix4) (d : Cartesian3)
      (g : Gizmo) (a : Axis) (k : string) :
  _mode g = rotate ->
  dict_get (_axisPrimitives (updateAxis C b e d g a)) k
  = match dict_get (_axisPrimitives g) (axisName a ++ "_fan"),
          dict_get (_axisPrimitives g) (axisName a ++ "_rim") with
    | Some _, Some _ =>
        option_map
          (fun p =>
             if String.eqb (axisName a ++ "_fan") k
                || String.eqb (axisName a ++ "_rim") k
             then mkPrimitive (show p)
                    (sectorPlacement C b e a (snapAngle (viewAngle a d)))
             else p)
          (dict_get (_axisPrimitives g) k)
    | _, _ => dict_get (_axisPrimitives g) k
    end.
Proof.
  intros Hm; unfold updateAxis; cbv zeta; rewrite Hm.
  destruct (dict_get (_axisPrimitives g) (axisName a ++ "_fan")); [|reflexivity].
  destruct (dict_get (_axisPrimitives g) (axisName a ++ "_rim")); [|reflexivity].
  rewrite !placePrimitive_get.
  destruct (dict_get (_axisPrimitives g) k) as [q|]; [|reflexivity].
  cbn [option_map]; fold (sectorPlacement C b e a (snapAngle (viewAngle a d))).
  destruct (String.eqb (axisName a ++ "_fan") k),
    (String.eqb (axisName a ++ "_rim") k); reflexivity.
Qed.

(** In rotate mode [update] keeps the mode, the center and the nominal
    length. *)
Lemma update_rotate_frame (g : Gizmo) :
  _mode g = rotate ->
  _mode (update C V g) = rotate /\ center (update C V g) = center g
  /\ axisLength (update C V g) = axisLength g
  /\ _colliders (update C V g) = _colliders g.
Proof.
  intros Hm; unfold update.
  destruct (center g) as [c|] eqn:Hc; [|auto].
  destruct (Matrix4_inverse C (eastNorthUpToFixedFrame C c)) as [inv|];
    [|auto].
  cbv zeta; cbn [fold_left].
  match goal with |- context [placePrimitive "CENTER" ?m g] =>
    destruct (placePrimitive_frame "CENTER" m g)
      as (H0m & _ & H0c & H0k & _ & _ & H0l);
    set (g0 := placePrimitive "CENTER" m g) in *
  end.
  match goal with |- context [updateAxis C ?b ?e ?d g0 X] =>
    destruct (updateAxis_frame b e d g0 X)
      as (H1m & _ & H1c & H1k & _ & _ & H1l);
    set (g1 := updateAxis C b e d g0 X) in *;
    destruct (updateAxis_frame b e d g1 Y)
      as (H2m & _ & H2c & H2k & _ & _ & H2l);
    set (g2 := updateAxis C b e d g1 Y) in *;
    destruct (updateAxis_frame b e d g2 Z)
      as (H3m & _ & H3c & H3k & _ & _ & H3l);
    set (g3 := updateAxis C b e d g2 Z) in *
  end.
  assert (Hm3 : _mode g3 = rotate) by congruence.
  rewrite Hm3, H3c, H3k, H3l, H2c, H2k, H2l, H1c, H1k, H1l, H0c, H0k, H0l.
  auto.
Qed.

Lemma update_rotate_get (g : Gizmo) (c : Cartesian3) (inv : Matrix4)
      (a : Axis) (fan rim : Primitive) :
  _mode g = rotate -> center g = Some c ->
  Matrix4_inverse C (eastNorthUpToFixedFrame C c) = Some inv ->
  a = X \/ a = Y \/ a = Z ->
  dict_get (_axisPrimitives g) (axisName a ++ "_fan") = Some fan ->
  dict_get (_axisPrimitives g) (axisName a ++ "_rim") = Some rim ->
  let m :=
    sectorPlacement C
      (getPixelSize V c (canvas_clientWidth V) (canvas_clientHeight V)
       * axisLength g)
      (eastNorthUpToFixedFrame C c) a
      (snapAngle (viewAngle a (localCameraDirection V inv c))) in
  dict_get (_axisPrimitives (update C V g)) (axisName a ++ "_fan")
  = Some (mkPrimitive (show fan) m)
  /\ dict_get (_axisPrimitives (update C V g)) (axisName a ++ "_rim")
     = Some (mkPrimitive (show rim) m).
Proof.
  intros Hm Hc Hi Ha Hf Hr; unfold update; rewrite Hc, Hi.
  set (b := getPixelSize V c _ _ * axisLength g).
  set (e := eastNorthUpToFixedFrame C c).
  set (d := localCameraDirection V inv c).
  cbv zeta.
  match goal with |- context [placePrimitive "CENTER" ?m g] =>
    set (g0 := placePrimitive "CENTER" m g) end.
  assert (Hm0 : _mode g0 = rotate)
    by (subst g0; rewrite (proj1 (placePrimitive_frame _ _ _)); exact Hm).
  assert (Hg0 : forall k, k <> "CENTER" ->
            dict_get (_axisPrimitives g0) k = dict_get (_axisPrimitives g) k).
  { intros k Hk; subst g0; rewrite placePrimitive_get.
    destruct (String.eqb "CENTER" k) eqn:E;
      [apply String.eqb_eq in E; congruence|].
    destruct (dict_get (_axisPrimitives g) k); reflexivity. }
  cbn [fold_left].
  set (g1 := updateAxis C b e d g0 X).
  set (g2 := updateAxis C b e d g1 Y).
  set (g3 := updateAxis C b e d g2 Z).
  assert (Hm1 : _mode g1 = rotate)
    by (subst g1; rewrite (proj1 (updateAxis_frame _ _ _ _ _)); exact Hm0).
  assert (Hm2 : _mode g2 = rotate)
    by (subst g2; rewrite (proj1 (updateAxis_frame _ _ _ _ _)); exact Hm1).
  assert (Hm3 : _mode g3 = rotate)
    by (subst g3; rewrite (proj1 (updateAxis_frame _ _ _ _ _)); exact Hm2).
  rewrite Hm3.
  subst g3; rewrite !updateAxis_rotate_get by exact Hm2.
  subst g2; rewrite !updateAxis_rotate_get by exact Hm1.
  subst g1; rewrite !updateAxis_rotate_get by exact Hm0.
  rewrite !Hg0 by (destruct Ha as [ -> | [ -> | -> ] ]; discriminate).
  destruct Ha as [ -> | [ -> | -> ] ];
    cbn [axisName append] in *; rewrite ?Hf, ?Hr;
    repeat match goal with
    | |- context [dict_get (_axisPrimitives g) ?k] =>
        destruct (dict_get (_axisPrimitives g) k)
    end;
    cbn [option_map String.eqb Ascii.eqb Bool.eqb orb show p_modelMatrix];
    split; reflexivity.
Qed.

(** C4.  In rotate mode the frame update places the fan and the rim of
    each rotation handle by the local frame, the uniform scale, and the
    rotation about the handle's axis by
    [floor(angle / (PI/2)) * (PI/2)], where [angle] is the [atan2] of the
    camera direction, taken in the local frame, in the handle's plane
    (x,y for Z; y,z for X; z,x for Y).  The snapped angle is 0 for every
    angle in [0, PI/2) and is [PI/2] at [PI/2]; a camera direction in the
    open first quadrant of the plane gives such an angle.  A second
    update with the same camera leaves the placement as it is. *)
Theorem quadrant_snap (g : Gizmo) (c : Cartesian3) (inv : Matrix4)
        (a : Axis) (fan rim : Primitive) :
  _mode g = rotate -> center g = Some c ->
  Matrix4_inverse C (eastNorthUpToFixedFrame C c) = Some inv ->
  a = X \/ a = Y \/ a = Z ->
  dict_get (_axisPrimitives g) (axisName a ++ "_fan") = Some fan ->
  dict_get (_axisPrimitives g) (axisName a ++ "_rim") = Some rim ->
  let dir := localCameraDirection V inv c in
  let angle :=
    match a with
    | X => JsMath.atan2 (cz dir) (cy dir)
    | Y => JsMath.atan2 (cx dir) (cz dir)
    | _ => JsMath.atan2 (cy dir) (cx dir)
    end in
  let m :=
    sectorPlacement C
      (getPixelSize V c (canvas_clientWidth V) (canvas_clientHeight V)
       * axisLength g)
      (eastNorthUpToFixedFrame C c) a (Spec.quadrantSnap angle) in
  let fanKey := axisName a ++ "_fan" in
  let rimKey := axisName a ++ "_rim" in
  dict_get (_axisPrimitives (update C V g)) fanKey
  = Some (mkPrimitive (show fan) m)
  /\ dict_get (_axisPrimitives (update C V g)) rimKey
     = Some (mkPrimitive (show rim) m)
  /\ (0 <= angle < PI / 2 -> Spec.quadrantSnap angle = 0)
  /\ (angle = PI / 2 -> Spec.quadrantSnap angle = PI / 2)
  /\ (forall u v, 0 < u -> 0 <= v ->
                  Spec.quadrantSnap (JsMath.atan2 v u) = 0)
  /\ (forall v, 0 < v -> Spec.quadrantSnap (JsMath.atan2 v 0) = PI / 2)
  /\ dict_get (_axisPrimitives (update C V (update C V g))) fanKey
     = dict_get (_axisPrimitives (update C V g)) fanKey
  /\ dict_get (_axisPrimitives (update C V (update C V g))) rimKey
     = dict_get (_axisPrimitives (update C V g)) rimKey.
Proof.
  intros Hm Hc Hi Ha Hf Hr dir angle m fanKey rimKey.
  assert (Hangle : viewAngle a dir = angle)
    by (destruct Ha as [ -> | [ -> | -> ] ]; reflexivity).
  assert (Hsnap : forall t, snapAngle t = Spec.quadrantSnap t)
    by (intro t; reflexivity).
  destruct (update_rotate_get g c inv a fan rim Hm Hc Hi Ha Hf Hr)
    as [Hfan Hrim].
  fold dir in Hfan, Hrim; rewrite Hangle, Hsnap in Hfan, Hrim.
  fold m fanKey in Hfan; fold m rimKey in Hrim.
  destruct (update_rotate_frame g Hm) as (Hm' & Hc' & Hl' & _).
  rewrite Hc in Hc'.
  destruct (update_rotate_get (update C V g) c inv a
              (mkPrimitive (show fan) m) (mkPrimitive (show rim) m)
              Hm' Hc' Hi Ha Hfan Hrim) as [Hfan2 Hrim2].
  fold dir in Hfan2, Hrim2; rewrite Hangle, Hsnap, Hl' in Hfan2, Hrim2.
  fold m fanKey in Hfan2; fold m rimKey in Hrim2.
  split; [exact Hfan|split; [exact Hrim|]].
  split; [intro H; rewrite <- Hsnap; apply snapAngle_first_quadrant; exact H|].
  split; [intros ->; rewrite <- Hsnap; apply snapAngle_right_angle|].
  split; [intros u v Hu Hv; rewrite <- Hsnap;
          apply snapAngle_first_quadrant, atan2_first_quadrant; assumption|].
  split; [intros v Hv; rewrite atan2_straight_up by exact Hv;
          rewrite <- Hsnap; apply snapAngle_right_angle|].
  rewrite Hfan2, Hrim2, Hfan, Hrim; split; reflexivity.
Qed.

(** *** Drag arithmetic: scale (C5) and rotate (C6) *)

Lemma writeModelMatrix_frame (m : Matrix4) (g : Gizmo) :
  let g' := writeModelMatrix m g in
  _activeScale g' = _activeScale g /\ center g' = center g
  /\ emitted g' = emitted g.
Proof.
  unfold writeModelMatrix.
  destruct (object g) as [o|]; [destruct (isModelOrTileset o)|]; fields;
    repeat split; reflexivity.
Qed.

Lemma applyTransform_frame (m : Matrix4) (g : Gizmo) :
  let g' := applyTransform m g in
  _activeScale g' = _activeScale g /\ center g' = center g
  /\ emitted g' = emitted g.
Proof.
  unfold applyTransform.
  destruct (center g) eqn:Hc; [|rewrite Hc; auto].
  cbv zeta; rewrite <- Hc; apply writeModelMatrix_frame.
Qed.

(** C5.  In a scale tick the factor is
    [max(0.01, 1 + dot(delta, cameraUp) * sensitivity * 2)] for the CENTER
    handle and [max(0.01, 1 + dot(delta, axisVector) * sensitivity)] for
    an axis handle, with [sensitivity = 1 / (axisLength * pixelSize)]; it
    is the value recorded in [_activeScale] (all three components for
    CENTER, the component of the axis otherwise).  The factor is at
    least 0.01, and it is exactly 0.01 whenever the unfloored value is
    below 0.01. *)
Theorem updateScale_factor_floor (g : Gizmo) (c newPoint : Cartesian3) :
  center g = Some c ->
  let delta := Cartesian3.subtract newPoint (_dragStartPoint g) in
  let sensitivity :=
    1.0 / (axisLength g
           * getPixelSize V c (canvas_width V) (canvas_height V)) in
  let uniform := 1.0 + Cartesian3.dot delta (camera_up V) * sensitivity * 2.0 in
  let single :=
    1.0 + Cartesian3.dot delta (dragAxisVector C g c) * sensitivity in
  let g' := updateScale C V newPoint g in
  (_dragAxisName g = "CENTER" ->
     _activeScale g'
     = mkC3 (Rmax 0.01 uniform) (Rmax 0.01 uniform) (Rmax 0.01 uniform))
  /\ (_dragAxisName g <> "CENTER" ->
      (axisOfName (_dragAxisName g) = Some "X" ->
         cx (_activeScale g') = Rmax 0.01 single)
      /\ (axisOfName (_dragAxisName g) = Some "Y" ->
          cy (_activeScale g') = Rmax 0.01 single)
      /\ (axisOfName (_dragAxisName g) = Some "Z" ->
          cz (_activeScale g') = Rmax 0.01 single))
  /\ (forall x, x = uniform \/ x = single ->
                0.01 <= Rmax 0.01 x
                /\ (x < 0.01 -> Rmax 0.01 x = 0.01)
                /\ 0 < Rmax 0.01 x).
Proof.
  intros Hc delta sensitivity uniform single g'.
  split; [|split].
  - intros Hname; subst g'; unfold updateScale; rewrite Hc, Hname.
    cbv zeta; cbn [String.eqb Ascii.eqb Bool.eqb].
    rewrite (proj1 (applyTransform_frame _ _)); fields; reflexivity.
  - intros Hname.
    assert (E : String.eqb (_dragAxisName g) "CENTER" = false)
      by (apply String.eqb_neq; exact Hname).
    subst g'; unfold updateScale; rewrite Hc, E; cbv zeta.
    rewrite (proj1 (applyTransform_frame _ _)); fields.
    repeat split; intros ->; reflexivity.
  - intros x _; destruct (max_floor x) as (H1 & H2 & _).
    unfold JsMath.max in *; repeat split; [exact H1|exact H2|lra].
Qed.


(** *** The registry against the primitives (C7) *)

(** [update] changes no key of [_axisPrimitives]: a key without a
    primitive stays without one. *)
Lemma placePrimitive_absent (k k' : string) (m : Matrix4) (g : Gizmo) :
  dict_get (_axisPrimitives g) k' = None ->
  dict_get (_axisPrimitives (placePrimitive k m g)) k' = None.
Proof. intros H; rewrite placePrimitive_get, H; reflexivity. Qed.

Lemma updateAxis_absent (b : R) (e : Matrix4) (d : Cartesian3)
      (g : Gizmo) (a : Axis) (k : string) :
  dict_get (_axisPrimitives g) k = None ->
  dict_get (_axisPrimitives (updateAxis C b e d g a)) k = None.
Proof.
  intros H; unfold updateAxis; cbv zeta.
  destruct (_mode g);
    try destruct (dict_get (_axisPrimitives g) (axisName a ++ "_fan"));
    try destruct (dict_get (_axisPrimitives g) (axisName a ++ "_rim"));
    repeat apply placePrimitive_absent; exact H.
Qed.

Lemma update_absent (g : Gizmo) (k : string) :
  dict_get (_axisPrimitives g) k = None ->
  dict_get (_axisPrimitives (update C V g)) k = None.
Proof.
  intros H; unfold update.
  destruct (center g) as [c|]; [|exact H].
  destruct (Matrix4_inverse C (eastNorthUpToFixedFrame C c)); [|exact H].
  cbv zeta; cbn [fold_left].
  match goal with |- context [match ?m with translate => _ | _ => _ end] =>
    destruct m
  end;
    repeat apply placePrimitive_absent;
    repeat apply updateAxis_absent;
    apply placePrimitive_absent; exact H.
Qed.

Lemma update_colliders (g : Gizmo) :
  _colliders (update C V g) = _colliders g.
Proof.
  unfold update.
  destruct (center g) as [c|]; [|reflexivity].
  destruct (Matrix4_inverse C (eastNorthUpToFixedFrame C c)); [|reflexivity].
  cbv zeta; cbn [fold_left].
  match goal with |- context [match ?m with translate => _ | _ => _ end] =>
    destruct m
  end;
    repeat match goal with
    | |- context [placePrimitive ?k ?m ?x] =>
        rewrite (proj1 (proj2 (proj2 (proj2 (placePrimitive_frame k m x)))))
    | |- context [updateAxis C ?b ?e ?d ?x ?a] =>
        rewrite (proj1 (proj2 (proj2 (proj2 (updateAxis_frame b e d x a)))))
    end; reflexivity.
Qed.

(** A collider whose key has no primitive is skipped by the loop. *)
Lemma colliderHit_unregistered (g : Gizmo) (ray : Ray) (c : GizmoCollider) :
  dict_get (_axisPrimitives g) (primitiveKey c) = None ->
  colliderHit C g ray c = None.
Proof. intros H; unfold colliderHit; rewrite H; reflexivity. Qed.

(** What [createGizmo] registers in rotate mode: the sector colliders
    under the keys X, Y and Z, the primitives under the keys X_fan,
    X_rim, ..., and the CENTER box. *)
Lemma createGizmo_rotate_registry (g : Gizmo) :
  let g' := createGizmo (set_mode rotate g) in
  map (fun c => (ctype c, primitiveKey c, axis (id c))) (_colliders g')
  = [(SECTOR, "X", X); (SECTOR, "Y", Y); (SECTOR, "Z", Z);
     (BOX, "CENTER", CENTER)]
  /\ map fst (_axisPrimitives g')
     = ["X_fan"; "X_rim"; "Y_fan"; "Y_rim"; "Z_fan"; "Z_rim"; "CENTER"].
Proof. split; reflexivity. Qed.

Lemma dict_get_absent {A} (d : Dict A) (k : string) :
  ~ In k (map fst d) -> dict_get d k = None.
Proof.
  induction d as [|[k0 v0] rest IH]; cbn [dict_get map fst In];
    [reflexivity|].
  intros H; destruct (String.eqb k0 k) eqn:E.
  - apply String.eqb_eq in E; subst; exfalso; apply H; left; reflexivity.
  - apply IH; intro Hin; apply H; right; exact Hin.
Qed.

(** Every collider of the rotate-mode registry is either a sector whose
    key has no primitive, or the CENTER box. *)
Lemma createGizmo_rotate_colliders (g : Gizmo) (c : GizmoCollider) :
  In c (_colliders (createGizmo (set_mode rotate g))) ->
  (ctype c = SECTOR
   /\ dict_get (_axisPrimitives (createGizmo (set_mode rotate g)))
               (primitiveKey c) = None)
  \/ (ctype c = BOX /\ axis (id c) = CENTER).
Proof.
  intros Hin.
  destruct (createGizmo_rotate_registry g) as [Hcs Hks].
  apply (in_map (fun c => (ctype c, primitiveKey c, axis (id c)))) in Hin.
  rewrite Hcs in Hin.
  assert (Hkey : forall k, k = "X" \/ k = "Y" \/ k = "Z" ->
            dict_get (_axisPrimitives (createGizmo (set_mode rotate g))) k
            = None).
  { intros k Hk; apply dict_get_absent; rewrite Hks.
    cbn [In]; destruct Hk as [ -> | [ -> | -> ] ];
      intuition discriminate. }
  destruct Hin as [E|[E|[E|[E|[]]]]]; injection E as Ht Hk Ha.
  - left; split; [auto|apply Hkey; auto].
  - left; split; [auto|apply Hkey; auto].
  - left; split; [auto|apply Hkey; auto].
  - right; auto.
Qed.

(** C7.  The sector test of [rayCastGizmo] is never reached for the
    rotation handles the gizmo builds: [createRotationGizmo] registers
    each sector collider under the key of its axis ("X", "Y", "Z") while
    the primitives are stored under "X_fan", "X_rim", ..., so the lookup
    of the collider's primitive fails and the loop skips the collider.
    After [createGizmo] in rotate mode and a frame update, no ray hits a
    sector collider and [rayCastGizmo] can return the CENTER handle
    only. *)
Theorem sector_colliders_unreachable (g : Gizmo) (position : Cartesian2) :
  let g' := update C V (createGizmo (set_mode rotate g)) in
  (forall c ray, In c (_colliders g') -> ctype c = SECTOR ->
                 colliderHit C g' ray c = None)
  /\ match rayCastGizmo C V g' position with
     | Some i => axis i = CENTER
     | None => True
     end.
Proof.
  remember (createGizmo (set_mode rotate g)) as g0 eqn:Eg0.
  assert (Hreg : forall c, In c (_colliders g0) ->
            (ctype c = SECTOR
             /\ dict_get (_axisPrimitives g0) (primitiveKey c) = None)
            \/ (ctype c = BOX /\ axis (id c) = CENTER))
    by (subst g0; exact (createGizmo_rotate_colliders g)).
  clear Eg0.
  assert (Hcs : forall c, In c (_colliders (update C V g0)) ->
            ctype c = SECTOR ->
            dict_get (_axisPrimitives (update C V g0)) (primitiveKey c) = None).
  { intros c Hin Hs; apply update_absent.
    rewrite update_colliders in Hin.
    destruct (Hreg c Hin) as [[_ H]|[H _]];
      [exact H|congruence]. }
  cbv zeta; split.
  - intros c ray Hin Hs; apply colliderHit_unregistered, Hcs; assumption.
  - destruct (rayCastGizmo C V (update C V g0) position) as [i|] eqn:Hi;
      [|exact I].
    unfold rayCastGizmo in Hi.
    destruct (_colliders (update C V g0)) eqn:Hne; [discriminate|].
    rewrite <- Hne in *; clear Hne.
    destruct (getPickRay V position) as [ray|]; [|discriminate].
    destruct (castLoop_least (update C V g0) ray
                (_colliders (update C V g0)) JsMath.MAX_VALUE None)
      as [[Hr _] | (c & t & Hin & Hh & Hr & _)]; [congruence|].
    rewrite Hi in Hr; injection Hr as ->.
    destruct (ctype c) eqn:Hty.
    + rewrite update_colliders in Hin.
      destruct (Hreg c Hin) as [[H _]|[_ H]];
        [congruence|exact H].
    + rewrite (colliderHit_unregistered _ ray c (Hcs c Hin Hty)) in Hh.
      discriminate.
Qed.


End Properties.

(* ================================================================== *)
(** ** Runs in the flat scene *)

(** [run] evaluates the engine on a concrete state, leaving real
    arithmetic as it stands. *)
Ltac run :=
  cbv -[Rplus Rmult Rminus Rdiv Rinv Ropp IZR Rlt_dec Rle_dec Req_dec_T sqrt
        PI Rmax Rmin Rabs atan acos Zfloor cos sin pow Rlt Rle].

Lemma MAX_VALUE_large : 1000000 < JsMath.MAX_VALUE.
Proof.
  unfold JsMath.MAX_VALUE.
  assert (H20 : 2 ^ 20 <= 2 ^ 1023) by (apply Rle_pow; [lra|lia]).
  assert (H52 : 1 <= 2 ^ 52) by (apply pow_R1_Rle; lra).
  assert (Hinv : / 2 ^ 52 <= 1).
  { rewrite <- Rinv_1; apply Rinv_le_contravar; lra. }
  assert (Hv : 2 ^ 20 = 1048576) by (simpl; lra).
  assert (Hpos : 0 < 2 ^ 1023) by (apply pow_lt; lra).
  apply Rlt_le_trans with (1 * 2 ^ 1023); [lra|].
  apply Rmult_le_compat_r; lra.
Qed.

Lemma sqrt_le_bound (x y : R) : 0 <= y -> x <= y * y -> sqrt x <= y.
Proof.
  intros Hy Hx; rewrite <- (sqrt_square y Hy).
  apply sqrt_le_1_alt; exact Hx.
Qed.

Module Scene0Run.

Import Scene0.

Lemma pick_ray (u v : R) :
  -100 <= u -> getPickRay viewer (mkC2 u v) = Some (vertical u v).
Proof.
  intros Hu; cbn [getPickRay viewer c2x c2y].
  destruct (Rlt_dec u (-100)); [lra|reflexivity].
Qed.

Lemma colliderHit_placed (g : Gizmo) (ray : Ray) (c : GizmoCollider) :
  dict_get (_axisPrimitives g) (primitiveKey c) = Some placed ->
  colliderHit cesium g ray c = localHit cesium ray c.
Proof.
  intros Hp; unfold colliderHit; rewrite Hp.
  cbn [placed show p_modelMatrix negb Matrix4_inverse cesium].
  unfold inverse; cbn [Matrix4.IDENTITY m4c0 m4c1 m4c2 m4c3 qx qy qz qw].
  destruct ray as [[ox oy oz] [dx dy dz]].
  f_equal; unfold Matrix4.multiplyByPoint, Matrix4.multiplyByPointAsVector,
    Matrix4.apply;
    cbn [m4c0 m4c1 m4c2 m4c3 qx qy qz qw cx cy cz origin direction].
  f_equal; f_equal; field.
Qed.

(** The box test on a vertical ray: inside the footprint the ray enters
    through the top face. *)
Lemma rayBox_inside (u v : R) (lo hi : Cartesian3) :
  cx lo <= u <= cx hi -> cy lo <= v <= cy hi -> cz lo <= cz hi <= 10 ->
  exists iv, rayBox (vertical u v) (mkAABB lo hi) = Some iv
             /\ start iv = 10 - cz hi.
Proof.
  intros [Hx1 Hx2] [Hy1 Hy2] [Hz1 Hz2].
  unfold rayBox, slab, vertical;
    cbn [origin direction minimum maximum cx cy cz].
  destruct (Req_dec_T 0 0) as [_|H]; [|lra].
  destruct (Rle_dec (cx lo) u); [|lra].
  destruct (Rle_dec u (cx hi)); [|lra].
  destruct (Rle_dec (cy lo) v); [|lra].
  destruct (Rle_dec v (cy hi)); [|lra].
  destruct (Req_dec_T (-1) 0) as [H|_]; [lra|].
  cbn [meet].
  set (t1 := (cz lo - 10) / -1); set (t2 := (cz hi - 10) / -1).
  assert (E1 : t1 = 10 - cz lo) by (subst t1; field).
  assert (E2 : t2 = 10 - cz hi) by (subst t2; field).
  assert (Emin : Rmin t1 t2 = 10 - cz hi) by (rewrite Rmin_right; lra).
  assert (Emax : Rmax t1 t2 = 10 - cz lo) by (rewrite Rmax_left; lra).
  destruct (Rlt_dec (Rmax t1 t2) (Rmin t1 t2)); [lra|].
  destruct (Rlt_dec (Rmax t1 t2) 0); [lra|].
  eexists; split; [reflexivity|exact Emin].
Qed.

Lemma rayBox_outside (u v : R) (lo hi : Cartesian3) :
  u < cx lo \/ cx hi < u \/ v < cy lo \/ cy hi < v ->
  rayBox (vertical u v) (mkAABB lo hi) = None.
Proof.
  intros H; unfold rayBox, slab, vertical;
    cbn [origin direction minimum maximum cx cy cz].
  destruct (Req_dec_T 0 0) as [_|H0]; [|lra].
  destruct (Rle_dec (cx lo) u); [|reflexivity].
  destruct (Rle_dec u (cx hi)); [|reflexivity].
  destruct (Rle_dec (cy lo) v); [|reflexivity].
  destruct (Rle_dec v (cy hi)); [|reflexivity].
  lra.
Qed.

Lemma box_hit (g : Gizmo) (u v : R) (c : GizmoCollider) :
  ctype c = BOX ->
  dict_get (_axisPrimitives g) (primitiveKey c) = Some placed ->
  cx (localMin c) <= u <= cx (localMax c) ->
  cy (localMin c) <= v <= cy (localMax c) ->
  cz (localMin c) <= cz (localMax c) <= 10 ->
  colliderHit cesium g (vertical u v) c = Some (10 - cz (localMax c)).
Proof.
  intros Hb Hp Hx Hy Hz; rewrite (colliderHit_placed g _ c Hp).
  unfold localHit; cbn [rayAxisAlignedBoundingBox cesium].
  destruct (rayBox_inside u v _ _ Hx Hy Hz) as (iv & -> & Hs).
  rewrite Hb, Hs; reflexivity.
Qed.

Lemma box_miss (g : Gizmo) (u v : R) (c : GizmoCollider) :
  dict_get (_axisPrimitives g) (primitiveKey c) = Some placed ->
  u < cx (localMin c) \/ cx (localMax c) < u
  \/ v < cy (localMin c) \/ cy (localMax c) < v ->
  colliderHit cesium g (vertical u v) c = None.
Proof.
  intros Hp H; rewrite (colliderHit_placed g _ c Hp).
  unfold localHit; cbn [rayAxisAlignedBoundingBox cesium].
  rewrite (rayBox_outside u v _ _ H); reflexivity.
Qed.

(** The primitives behind the colliders of [bound translate]. *)
Lemma translate_placed (k : string) :
  In k ["X_line"; "Y_line"; "Z_line"; "PLANE_XY"; "PLANE_YZ"; "PLANE_ZX";
        "CENTER"] ->
  dict_get (_axisPrimitives (bound translate)) k = Some placed.
Proof.
  intros H; repeat (destruct H as [<-|H]; [run; repeat f_equal; lra|]).
  destruct H.
Qed.


(** *** Ray casts on the translate gizmo *)

(** The primitives behind the colliders of [bound scale]. *)
Lemma scale_placed (k : string) :
  In k ["X_line"; "Y_line"; "Z_line"; "CENTER"] ->
  dict_get (_axisPrimitives (bound scale)) k = Some placed.
Proof.
  intros H; repeat (destruct H as [<-|H]; [run; repeat f_equal; lra|]).
  destruct H.
Qed.

Ltac box_side :=
  match goal with
  | |- ctype _ = BOX => reflexivity
  | |- dict_get (_axisPrimitives (bound translate)) _ = Some placed =>
      apply translate_placed;
      cbn [In primitiveKey boxCollider];
      repeat (first [left; reflexivity | right])
  | |- dict_get (_axisPrimitives (bound scale)) _ = Some placed =>
      apply scale_placed;
      cbn [In primitiveKey boxCollider];
      repeat (first [left; reflexivity | right])
  | |- _ => cbn [localMin localMax cx cy cz boxCollider]; lra
  end.

Ltac step_hit u v :=
  match goal with
  | |- context [colliderHit cesium ?g (vertical u v) ?c] =>
      first [ rewrite (box_hit g u v c) by box_side
            | rewrite (box_miss g u v c) by box_side ]
  end.

Ltac decide_lt :=
  match goal with
  | |- context [Rlt_dec ?a ?b] =>
      destruct (Rlt_dec a b); [try (exfalso; lra)|try (exfalso; lra)]
  end.

Ltac cast_mode mode u v :=
  let cs := fresh "cs" in
  set (cs := _colliders (bound mode));
  cbv -[Rplus Rmult Rminus Rdiv Rinv Ropp IZR] in cs; subst cs;
  cbn [castLoop];
  repeat (step_hit u v;
          cbn [pickDistance id axis Axis_eqb localMax localMin cx cy cz];
          try decide_lt).

(** At the pointer position (0, 0) the ray enters the boxes of the X, Y
    and Z axes and of the CENTER handle; the loop ends on CENTER. *)
Lemma cast_at_origin :
  castLoop cesium (bound translate) (vertical 0 0)
           (_colliders (bound translate)) JsMath.MAX_VALUE None
  = Some (mkId CENTER center_type "CENTER").
Proof.
  pose proof MAX_VALUE_large as Hmax.
  cast_mode translate 0 0; reflexivity.
Qed.

Lemma z_axis_collider :
  In (boxCollider "Z_line" (mkId Z (ofMode translate) "TRANS_Z")
                  (mkC3 (Ropp 0.1) (Ropp 0.1) 0) (mkC3 0.1 0.1 (1.0 + 0.15)))
     (_colliders (bound translate)).
Proof. run; do 2 right; left; reflexivity. Qed.

Lemma z_axis_hit_at_origin :
  colliderHit cesium (bound translate) (vertical 0 0)
    (boxCollider "Z_line" (mkId Z (ofMode translate) "TRANS_Z")
                 (mkC3 (Ropp 0.1) (Ropp 0.1) 0) (mkC3 0.1 0.1 (1.0 + 0.15)))
  = Some (10 - (1.0 + 0.15)).
Proof. rewrite box_hit by box_side; reflexivity. Qed.

(** At the pointer position (0.5, 0) only the X axis is hit. *)
Lemma cast_on_x_axis :
  castLoop cesium (bound translate) (vertical 0.5 0)
           (_colliders (bound translate)) JsMath.MAX_VALUE None
  = Some (mkId X (ofMode translate) "TRANS_X").
Proof.
  pose proof MAX_VALUE_large as Hmax.
  cast_mode translate 0.5 0; reflexivity.
Qed.

Lemma picked_on_x_axis :
  pickedOnDown cesium viewer (bound translate) (mkC2 0.5 0)
  = Some (mkId X (ofMode translate) "TRANS_X").
Proof.
  unfold pickedOnDown.
  rewrite (rayCastGizmo_loop cesium viewer _ _ (vertical 0.5 0))
    by (apply pick_ray; lra).
  rewrite cast_on_x_axis; reflexivity.
Qed.

Lemma bound_fields (mode : TransformMode) :
  _mode (bound mode) = mode /\ _isDragging (bound mode) = false
  /\ object (bound mode) = Some model
  /\ center (bound mode) = Some Cartesian3.ZERO
  /\ enableRotate (bound mode) = true.
Proof. destruct mode; repeat split; reflexivity. Qed.

Lemma dragging_started :
  dragging = startDrag cesium viewer (mkId X (ofMode translate) "TRANS_X")
                       (mkC2 0.5 0) (bound translate)
  /\ _isDragging dragging = true /\ enableRotate dragging = false
  /\ enableTranslate dragging = false.
Proof.
  assert (E : dragging
              = startDrag cesium viewer (mkId X (ofMode translate) "TRANS_X")
                          (mkC2 0.5 0) (bound translate))
    by (unfold dragging, handleDown; rewrite picked_on_x_axis; reflexivity).
  split; [exact E|rewrite E].
  destruct (startDrag_started cesium viewer
              (mkId X (ofMode translate) "TRANS_X") (mkC2 0.5 0)
              (bound translate)) as (H1 & H2 & H3 & _);
    [reflexivity|auto].
Qed.


(** *** Counterexamples and instances *)

Lemma toFixed_value (d : nat) (x : R) (k : BinNums.Z) :
  0 <= x -> IZR k <= x * 10 ^ d + / 2 < IZR k + 1 ->
  JsMath.toFixed d x = IZR k / 10 ^ d.
Proof.
  intros Hx Hk; unfold JsMath.toFixed.
  destruct (Rle_dec 0 x) as [_|Hn]; [|contradiction].
  rewrite (Zfloor_eq k _ Hk); reflexivity.
Qed.

(** C1, as stated, fails: with the pointer over the center of the
    translate gizmo, the Z axis collider is entered at distance 8.85,
    before the CENTER box (9.95), and the handle returned is CENTER. *)
Lemma center_chosen_over_axes :
  exists ray c t i,
    getPickRay viewer (mkC2 0 0) = Some ray
    /\ In c (_colliders (bound translate)) /\ axis (id c) = Z
    /\ colliderHit cesium (bound translate) ray c = Some t /\ t = 8.85
    /\ rayCastGizmo cesium viewer (bound translate) (mkC2 0 0) = Some i
    /\ axis i = CENTER.
Proof.
  assert (Hray : getPickRay viewer (mkC2 0 0) = Some (vertical 0 0))
    by (apply pick_ray; lra).
  exists (vertical 0 0).
  exists (boxCollider "Z_line" (mkId Z (ofMode translate) "TRANS_Z")
            (mkC3 (Ropp 0.1) (Ropp 0.1) 0) (mkC3 0.1 0.1 (1.0 + 0.15))).
  exists (10 - (1.0 + 0.15)), (mkId CENTER center_type "CENTER").
  split; [exact Hray|].
  split; [exact z_axis_collider|].
  split; [reflexivity|].
  split; [exact z_axis_hit_at_origin|].
  split; [lra|].
  split; [|reflexivity].
  rewrite (rayCastGizmo_loop cesium viewer _ _ _ Hray).
  exact cast_at_origin.
Qed.

Lemma center_collider :
  In (boxCollider "CENTER" (mkId CENTER center_type "CENTER")
                  (mkC3 (Ropp 0.05) (Ropp 0.05) (Ropp 0.05))
                  (mkC3 0.05 0.05 0.05))
     (_colliders (bound translate)).
Proof. run; do 6 right; left; reflexivity. Qed.

Lemma center_hit_at_origin :
  colliderHit cesium (bound translate) (vertical 0 0)
    (boxCollider "CENTER" (mkId CENTER center_type "CENTER")
                 (mkC3 (Ropp 0.05) (Ropp 0.05) (Ropp 0.05))
                 (mkC3 0.05 0.05 0.05))
  = Some (10 - 0.05).
Proof. rewrite box_hit by box_side; reflexivity. Qed.

(** Every collider of the translate gizmo that the ray of (0, 0) hits is
    entered at distance 8.85 or later. *)
Lemma hits_at_origin (c : GizmoCollider) (t : R) :
  In c (_colliders (bound translate)) ->
  colliderHit cesium (bound translate) (vertical 0 0) c = Some t ->
  8.85 <= t.
Proof.
  set (cs := _colliders (bound translate)).
  cbv -[Rplus Rmult Rminus Rdiv Rinv Ropp IZR] in cs; subst cs.
  intros Hin Hh.
  repeat (destruct Hin as [<-|Hin];
          [first [ rewrite box_hit in Hh by box_side;
                   cbn [localMax cz] in Hh; injection Hh as <-; lra
                 | rewrite box_miss in Hh by box_side; discriminate ]|]).
  destruct Hin.
Qed.

Lemma rayCast_center_priority_witness :
  getPickRay viewer (mkC2 0 0) = Some (vertical 0 0)
  /\ exists i,
       rayCastGizmo cesium viewer (bound translate) (mkC2 0 0) = Some i
       /\ axis i = CENTER.
Proof.
  assert (Hray : getPickRay viewer (mkC2 0 0) = Some (vertical 0 0))
    by (apply pick_ray; lra).
  split; [exact Hray|].
  pose proof MAX_VALUE_large as Hmax.
  apply (proj1 (proj2 (rayCast_center_priority cesium viewer
                         (bound translate) (mkC2 0 0) (vertical 0 0) Hray))
           (boxCollider "CENTER" (mkId CENTER center_type "CENTER")
              (mkC3 (Ropp 0.05) (Ropp 0.05) (Ropp 0.05)) (mkC3 0.05 0.05 0.05))
           (10 - 0.05)).
  - exact center_collider.
  - reflexivity.
  - exact center_hit_at_origin.
  - lra.
  - intros c' t' Hin _ Hh.
    pose proof (hits_at_origin c' t' Hin Hh); lra.
Defined.

Lemma shifted_state :
  exists st,
    getTransformState cesium shifted = Some st
    /\ px (position st)
       = JsMath.toFixed 2
           (cx (Matrix4.getTranslation (modelMatrixOf shifted 1))).
Proof. eexists; split; reflexivity. Qed.

(** C3, as stated, fails on the position: for a model translated by
    (1.234, 0, 0) the reported x is 1.23, the value rounded to 2 decimal
    digits, and not 1.234, the value rounded to 3. *)
Lemma position_rounded_to_two_digits :
  exists st,
    getTransformState cesium shifted = Some st
    /\ cx (Matrix4.getTranslation (modelMatrixOf shifted 1)) = 1.234
    /\ px (position st) = 1.23
    /\ JsMath.toFixed 3 1.234 = 1.234
    /\ ~ Spec.roundedTo 3 1.234 (px (position st)).
Proof.
  destruct shifted_state as (st & Hst & Hpx).
  assert (Hx : cx (Matrix4.getTranslation (modelMatrixOf shifted 1)) = 1.234)
    by reflexivity.
  rewrite Hx in Hpx.
  assert (H2 : JsMath.toFixed 2 1.234 = 1.23).
  { rewrite (toFixed_value 2 1.234 123); simpl; lra. }
  assert (H3 : JsMath.toFixed 3 1.234 = 1.234).
  { rewrite (toFixed_value 3 1.234 1234); simpl; lra. }
  exists st; rewrite Hpx, H2; repeat split; auto.
  intros [_ Habs]; simpl in Habs.
  rewrite Rabs_left in Habs by lra; lra.
Qed.

(** An angle of 0.007 degrees is reported as 0, which is not 0.007 rounded
    to 2 decimal digits (0.01): near 0 and 360 the angle is snapped, not
    rounded. *)
Lemma small_angle_snapped :
  Spec.wrapDegrees (0.007 * (PI / 180)) = 0.007
  /\ toDegrees (0.007 * (PI / 180)) = 0
  /\ ~ Spec.roundedTo 2 0.007 0.
Proof.
  pose proof PI_RGT_0 as Hpi.
  assert (Hw : Spec.wrapDegrees (0.007 * (PI / 180)) = 0.007).
  { unfold Spec.wrapDegrees; cbv zeta.
    replace (0.007 * (PI / 180) * (180 / PI)) with 0.007 by (field; lra).
    rewrite (Zfloor_eq 0 (0.007 / 360)) by (simpl; lra); simpl; lra. }
  split; [exact Hw|split].
  - apply (proj1 (toDegrees_policy (0.007 * (PI / 180)))).
    cbv zeta; rewrite Hw; left; lra.
  - intros [_ Habs]; simpl in Habs.
    rewrite Rabs_left in Habs by lra; lra.
Qed.


Lemma getTransformState_rounding_witness :
  exists st o,
    getTransformState cesium shifted = Some st
    /\ object shifted = Some o
    /\ Spec.roundedTo 2
         (cx (Matrix4.getTranslation (modelMatrixOf shifted (ref o))))
         (px (position st)).
Proof.
  destruct shifted_state as (st & Hst & _).
  destruct (getTransformState_rounding cesium shifted st Hst)
    as (o & Ho & Hp & _).
  exists st, o; split; [exact Hst|split; [exact Ho|]].
  apply Hp.
Defined.

Lemma drag_exit_paths_witness :
  _isDragging dragging = true
  /\ _isDragging (set_mode_property rotate dragging) = true
  /\ enableRotate (set_mode_property rotate dragging) = false
  /\ enableTranslate (set_mode_property rotate dragging) = false
  /\ enableRotate (destroy dragging) = false.
Proof.
  destruct dragging_started as (_ & Hd & Hr & Ht).
  destruct (drag_exit_paths cesium viewer dragging Hd Hr Ht)
    as (_ & _ & Hmode & Hdestroy).
  destruct (Hmode rotate) as (H1 & H2 & H3).
  destruct Hdestroy as (_ & H4 & _).
  repeat split; assumption.
Defined.

Lemma handleDown_starts_drag_witness :
  _isDragging (bound translate) = false
  /\ _isDragging (handleDown cesium viewer (mkC2 0.5 0) (bound translate))
     = true.
Proof.
  assert (Hidle : _isDragging (bound translate) = false) by reflexivity.
  split; [exact Hidle|].
  apply (proj1 (handleDown_starts_drag cesium viewer (bound translate)
                  (mkC2 0.5 0) Hidle)).
  exists (mkId X (ofMode translate) "TRANS_X"); split.
  - exact picked_on_x_axis.
  - left; discriminate.
Defined.

Lemma handleDrag_skips_tick_witness :
  getPickRay viewer (mkC2 (-200) 0) = None
  /\ handleDrag cesium viewer (mkC2 (-200) 0) dragging = dragging.
Proof.
  assert (Hnone : getPickRay viewer (mkC2 (-200) 0) = None).
  { cbn [getPickRay viewer c2x]; destruct (Rlt_dec (-200) (-100));
      [reflexivity|lra]. }
  split; [exact Hnone|].
  apply (handleDrag_skips_tick cesium viewer dragging (mkC2 (-200) 0)).
  left; exact Hnone.
Defined.

Lemma bindObject_same_object_witness :
  object (bound translate) = Some model
  /\ bindObject cesium viewer (Some model) (bound translate) = bound translate.
Proof.
  assert (Ho : object (bound translate) = Some model) by reflexivity.
  split; [exact Ho|].
  apply (bindObject_same_object cesium viewer (bound translate) model Ho).
Defined.

Lemma quadrant_snap_witness :
  dict_get (_axisPrimitives (update cesium viewer
                               (update cesium viewer (fresh rotate))))
           "Z_fan"
  = dict_get (_axisPrimitives (update cesium viewer (fresh rotate))) "Z_fan".
Proof.
  refine (proj1 (proj2 (proj2 (proj2 (proj2 (proj2 (proj2
            (quadrant_snap cesium viewer (fresh rotate) Cartesian3.ZERO _ Z
               placed placed _ _ _ _ _ _)))))))).
  - reflexivity.
  - reflexivity.
  - reflexivity.
  - right; right; reflexivity.
  - reflexivity.
  - reflexivity.
Defined.

(** *** Scale drags in the flat scene *)

Lemma picked_scale_center :
  pickedOnDown cesium viewer (bound scale) (mkC2 0 0)
  = Some (mkId CENTER (ofMode scale) "CENTER").
Proof.
  pose proof MAX_VALUE_large as Hmax.
  unfold pickedOnDown.
  rewrite (rayCastGizmo_loop cesium viewer _ _ (vertical 0 0))
    by (apply pick_ray; lra).
  cast_mode scale 0 0; reflexivity.
Qed.

Lemma picked_scale_x :
  pickedOnDown cesium viewer (bound scale) (mkC2 0.5 0)
  = Some (mkId X (ofMode scale) "SCALE_X").
Proof.
  pose proof MAX_VALUE_large as Hmax.
  unfold pickedOnDown.
  rewrite (rayCastGizmo_loop cesium viewer _ _ (vertical 0.5 0))
    by (apply pick_ray; lra).
  cast_mode scale 0.5 0; reflexivity.
Qed.

(** The start point of a drag begun at a pointer position [(u, 0)] has a
    zero y coordinate, whether or not the ray met the drag plane. *)
Lemma startDrag_start_point_y (i : GizmoId) (u : R) (g : Gizmo) :
  -100 <= u -> cy (_dragStartPoint g) = 0 ->
  cy (_dragStartPoint (startDrag cesium viewer i (mkC2 u 0) g)) = 0.
Proof.
  intros Hu H0; unfold startDrag.
  destruct (Axis_eqb (axis i) CENTER && negb (Mode_eqb (_mode g) scale));
    [exact H0|].
  set (g1 := set_dragAxisName (name i)
               (set_isDragging true
                  (set_enableTranslate false (set_enableRotate false g)))).
  destruct (updateOutlineSelection_keeps g1) as (_ & _ & _ & _ & _ & Hp).
  change (_dragStartPoint g1) with (_dragStartPoint g) in Hp.
  rewrite <- Hp in H0; clear Hp.
  generalize dependent (updateOutlineSelection g1); clear g1; intros g2 H0.
  destruct (center g2) as [c|]; [|exact H0].
  rewrite (pick_ray u 0 Hu).
  cbn [rayPlane cesium]; unfold intersectPlane; fields.
  destruct (object g2) as [o|]; [destruct (isModelOrTileset o)|]; fields;
    (match goal with |- context [Rlt_dec (Rabs ?d) ?e] =>
       destruct (Rlt_dec (Rabs d) e) end; [fields; exact H0|]);
    (match goal with |- context [Rlt_dec ?t 0] =>
       destruct (Rlt_dec t 0) end; [fields; exact H0|]);
    fields;
    cbn [Cartesian3.add Cartesian3.multiplyByScalar vertical origin
         direction cx cy cz]; ring.
Qed.

Lemma scalingCenter_state :
  center scalingCenter = Some Cartesian3.ZERO
  /\ _dragAxisName scalingCenter = "CENTER"
  /\ axisLength scalingCenter = 120
  /\ cy (_dragStartPoint scalingCenter) = 0.
Proof.
  assert (E : scalingCenter
              = startDrag cesium viewer (mkId CENTER (ofMode scale) "CENTER")
                          (mkC2 0 0) (bound scale))
    by (unfold scalingCenter, handleDown; rewrite picked_scale_center;
        reflexivity).
  rewrite E.
  destruct (startDrag_frame cesium viewer
              (mkId CENTER (ofMode scale) "CENTER") (mkC2 0 0) (bound scale))
    as (-> & _ & _ & -> & _).
  destruct (startDrag_started cesium viewer
              (mkId CENTER (ofMode scale) "CENTER") (mkC2 0 0) (bound scale))
    as (_ & _ & _ & ->); [reflexivity|].
  repeat split; try reflexivity.
  apply startDrag_start_point_y; [lra|reflexivity].
Qed.

Lemma scalingX_state :
  center scalingX = Some Cartesian3.ZERO
  /\ _dragAxisName scalingX = "SCALE_X".
Proof.
  assert (E : scalingX
              = startDrag cesium viewer (mkId X (ofMode scale) "SCALE_X")
                          (mkC2 0.5 0) (bound scale))
    by (unfold scalingX, handleDown; rewrite picked_scale_x; reflexivity).
  rewrite E.
  destruct (startDrag_frame cesium viewer
              (mkId X (ofMode scale) "SCALE_X") (mkC2 0.5 0) (bound scale))
    as (-> & _).
  destruct (startDrag_started cesium viewer
              (mkId X (ofMode scale) "SCALE_X") (mkC2 0.5 0) (bound scale))
    as (_ & _ & _ & ->); [reflexivity|].
  split; reflexivity.
Qed.


Lemma updateScale_factor_floor_witness :
  center scalingCenter = Some Cartesian3.ZERO
  /\ _dragAxisName scalingCenter = "CENTER"
  /\ _activeScale (updateScale cesium viewer (mkC3 0 (-500) 0) scalingCenter)
     = mkC3 0.01 0.01 0.01
  /\ center scalingX = Some Cartesian3.ZERO
  /\ _dragAxisName scalingX <> "CENTER"
  /\ axisOfName (_dragAxisName scalingX) = Some "X"
  /\ 0.01 <= cx (_activeScale
                   (updateScale cesium viewer (mkC3 (-500) 0 0) scalingX)).
Proof.
  destruct scalingCenter_state as (Hc & Hn & Hl & Hy).
  destruct scalingX_state as (Hcx & Hnx).
  split; [exact Hc|split; [exact Hn|split; [|split; [exact Hcx|]]]].
  - destruct (updateScale_factor_floor cesium viewer scalingCenter
                Cartesian3.ZERO (mkC3 0 (-500) 0) Hc) as (Hu & _ & Hf).
    rewrite (Hu Hn).
    match goal with |- {| cx := Rmax 0.01 ?x; cy := _; cz := _ |} = _ =>
      destruct (Hf x (or_introl eq_refl)) as (_ & Hlow & _);
      rewrite Hlow; [reflexivity|]
    end.
    rewrite Hl.
    cbn [camera_up viewer getPixelSize canvas_width canvas_height].
    unfold Cartesian3.dot, Cartesian3.subtract; cbn [cx cy cz]; rewrite Hy.
    replace (120 * / 120) with 1 by lra.
    lra.
  - assert (Hne : _dragAxisName scalingX <> "CENTER")
      by (rewrite Hnx; discriminate).
    assert (Hax : axisOfName (_dragAxisName scalingX) = Some "X")
      by (rewrite Hnx; reflexivity).
    split; [exact Hne|split; [exact Hax|]].
    destruct (updateScale_factor_floor cesium viewer scalingX
                Cartesian3.ZERO (mkC3 (-500) 0 0) Hcx) as (_ & Hs & _).
    destruct (Hs Hne) as (HX & _).
    rewrite (HX Hax); apply Rmax_l.
Defined.



End Scene0Run.
